(** * Code with Destiny: order and payment lifecycle of [app.py]

    A shallow embedding of the Flask backend [src/app.py]: the SQLite
    order store ([init_db], [insert_order], [update_order_payment],
    [get_order]), the notifier ([send_email], [send_email_async]) and
    the four request handlers ([create_order], [verify_payment],
    [get_order_details], [send_book]), followed by the properties of the
    order/payment state machine.

    Conventions of the embedding.
    - A Python [str] is a Rocq [string] holding its UTF-8 bytes, so
      [.encode()] is the identity and the ASCII characters ['@'], ['.']
      and ['|'] are single bytes.
    - A value decoded from a JSON body is a [json]; a JSON number with a
      fraction or an exponent is a [JFloat] carrying its IEEE value.
    - The database is an explicit value threaded through the helpers;
      [CURRENT_TIMESTAMP], [time.time()] and the payment gateway are
      read from an environment record [env].
    - Library functions whose full definition lies outside the
      repository (HMAC-SHA256, [int] of a [str], SQLite's rendering of a
      REAL as TEXT) are the fields of the class [Runtime]; every
      theorem holds for every instance, and [py_runtime] at the end of
      the definitions is the instance used to run examples. *)

From Stdlib Require Import ZArith NArith Ascii String List SpecFloat Lia.
From stdpp Require Import gmap strings list fin_maps pretty.

Set Warnings "-register-all".

Local Open Scope string_scope.
Local Open Scope Z_scope.

(** ** Python values and exceptions *)

Inductive json : Type :=
| JNull
| JBool (b : bool)
| JInt (z : Z)
| JFloat (f : spec_float)
| JStr (s : string)
| JArr (l : list json)
| JObj (l : list (string * json)).

(** The exceptions the handlers can meet; all are subclasses of
    [Exception], so the handlers' [except Exception] catches them. *)
Inductive exn : Type :=
| TypeError
| AttributeError
| ValueError
| OverflowError
| BadRequest              (* get_json(): the body is not valid JSON *)
| UnsupportedMediaType    (* get_json(): the content type is not JSON *)
| GatewayError.           (* razorpay_client.order.create raised *)

Inductive result (A : Type) : Type :=
| Ok (a : A)
| Raise (e : exn).
Arguments Ok {A} a.
Arguments Raise {A} e.

Definition bind {A B} (r : result A) (k : A -> result B) : result B :=
  match r with
  | Ok a => k a
  | Raise e => Raise e
  end.

Notation "x <- r ;; k" := (bind r (fun x => k))
  (at level 100, r at next level, right associativity).

(** ** Strings *)

Definition bytes_of (s : string) : list N :=
  List.map N_of_ascii (list_ascii_of_string s).

Definition str_of (l : list N) : string :=
  string_of_list_ascii (List.map ascii_of_N l).

(** [str.isspace] per code point, on the UTF-8 encoding: U+0009..U+000D,
    U+001C..U+0020 take one byte; U+0085 and U+00A0 two; U+1680,
    U+2000..U+200A, U+2028, U+2029, U+202F, U+205F and U+3000 three. *)
Definition ws1 (b : N) : bool :=
  ((9 <=? b) && (b <=? 13) || (28 <=? b) && (b <=? 32))%N.

Definition ws2 (b c : N) : bool :=
  ((b =? 194) && ((c =? 133) || (c =? 160)))%N.

Definition ws3 (b c d : N) : bool :=
  ((b =? 225) && (c =? 154) && (d =? 128)
   || (b =? 226) && (c =? 128)
      && ((128 <=? d) && (d <=? 138) || (d =? 168) || (d =? 169) || (d =? 175))
   || (b =? 226) && (c =? 129) && (d =? 159)
   || (b =? 227) && (c =? 128) && (d =? 128))%N.

(** Bytes of the white-space character at the head of [l]; 0 if none. *)
Definition ws_head (l : list N) : nat :=
  match l with
  | b :: r =>
      if ws1 b then 1%nat
      else match r with
           | c :: r' =>
               if ws2 b c then 2%nat
               else match r' with
                    | d :: _ => if ws3 b c d then 3%nat else 0%nat
                    | [] => 0%nat
                    end
           | [] => 0%nat
           end
  | [] => 0%nat
  end.

(** The same for the last character, on the reversed byte list. *)
Definition ws_last (l : list N) : nat :=
  match l with
  | d :: r =>
      if ws1 d then 1%nat
      else match r with
           | c :: r' =>
               if ws2 c d then 2%nat
               else match r' with
                    | b :: _ => if ws3 b c d then 3%nat else 0%nat
                    | [] => 0%nat
                    end
           | [] => 0%nat
           end
  | [] => 0%nat
  end.

Fixpoint strip_while (step : list N -> nat) (fuel : nat) (l : list N) : list N :=
  match fuel with
  | O => l
  | S fuel' =>
      match step l with
      | O => l
      | k => strip_while step fuel' (skipn k l)
      end
  end.

(** [s.strip()] *)
Definition py_strip (s : string) : string :=
  let l := bytes_of s in
  let l1 := strip_while ws_head (List.length l) l in
  let l2 := strip_while ws_last (List.length l1) (rev l1) in
  str_of (rev l2).

(** [needle in hay] for two [str]: [needle] occurs as a substring. *)
Fixpoint py_str_contains (needle hay : string) : bool :=
  String.prefix needle hay
  || match hay with
     | EmptyString => false
     | String _ rest => py_str_contains needle rest
     end.

(** ** Operations on JSON-derived values *)

(** [bool(v)] *)
Definition py_truthy (v : json) : bool :=
  match v with
  | JNull => false
  | JBool b => b
  | JInt z => negb (z =? 0)
  | JFloat f => match f with S754_zero _ => false | _ => true end
  | JStr s => negb (String.eqb s "")
  | JArr l => match l with [] => false | _ => true end
  | JObj l => match l with [] => false | _ => true end
  end.

(** [s == v] for a [str] [s]: only an equal [str] compares equal. *)
Definition py_str_eq (s : string) (v : json) : bool :=
  match v with
  | JStr t => String.eqb s t
  | _ => false
  end.

Fixpoint dict_lookup (k : string) (l : list (string * json)) : option json :=
  match l with
  | [] => None
  | (k', v) :: rest => if String.eqb k k' then Some v else dict_lookup k rest
  end.

(** [data.get(k)]: [None] (here [JNull]) for a missing key; only a
    [dict] has the method. *)
Definition py_get (data : json) (k : string) : result json :=
  match data with
  | JObj l => Ok (default JNull (dict_lookup k l))
  | _ => Raise AttributeError
  end.

(** [k in data] *)
Definition py_in (k : string) (data : json) : result bool :=
  match data with
  | JObj l => Ok (bool_decide (is_Some (dict_lookup k l)))
  | JArr l => Ok (existsb (py_str_eq k) l)
  | JStr s => Ok (py_str_contains k s)
  | _ => Raise TypeError
  end.

(** [all(k in data for k in ks)]: stops at the first [False]. *)
Fixpoint py_all_in (ks : list string) (data : json) : result bool :=
  match ks with
  | [] => Ok true
  | k :: rest =>
      b <- py_in k data ;;
      if b then py_all_in rest data else Ok false
  end.

(** [v.strip()]: only a [str] has the method. *)
Definition py_strip_value (v : json) : result string :=
  match v with
  | JStr s => Ok (py_strip s)
  | _ => Raise AttributeError
  end.

(** [a + b] where the code concatenates: defined on two [str] only. *)
Definition py_concat (a b : json) : result string :=
  match a, b with
  | JStr s, JStr t => Ok (s +:+ t)
  | _, _ => Raise TypeError
  end.

(** [int(f)] for a float: truncation toward zero. *)
Definition int_of_float (f : spec_float) : result Z :=
  match f with
  | S754_zero _ => Ok 0
  | S754_infinity _ => Raise OverflowError
  | S754_nan => Raise ValueError
  | S754_finite s m e =>
      let mag := if 0 <=? e then Z.pos m * 2 ^ e else Z.pos m / 2 ^ (- e) in
      Ok (if s then - mag else mag)
  end.

Definition int64 (z : Z) : bool := (- 2 ^ 63 <=? z) && (z <? 2 ^ 63).

(** ** Library functions taken as an interface *)

Class Runtime : Type := {
  (** [hmac.new(key.encode(), msg.encode(), hashlib.sha256).hexdigest()] *)
  hmac_sha256_hex : string -> string -> string;
  (** [int(s)] for a [str]; [None] when it raises [ValueError] *)
  int_of_str : string -> option Z;
  (** the TEXT that SQLite compares with a TEXT column when a [float]
      is bound to [id = ?]; [None] when it equals no text (NaN is bound
      as NULL) *)
  sqlite_real_text : spec_float -> option string
}.

(** [int(v)] *)
Definition py_int `{Runtime} (v : json) : result Z :=
  match v with
  | JInt z => Ok z
  | JBool b => Ok (if b then 1 else 0)
  | JFloat f => int_of_float f
  | JStr s => match int_of_str s with Some z => Ok z | None => Raise ValueError end
  | JNull | JArr _ | JObj _ => Raise TypeError
  end.

(** ** The database [orders.db] *)

Record order : Type := {
  o_id : string;
  o_user_name : string;
  o_user_email : string;
  o_user_whatsapp : string;
  o_amount : Z;
  o_status : string;
  o_payment_id : option string;
  o_created_at : Z;
  o_updated_at : Z
}.

Record payment : Type := {
  p_id : Z;
  p_order_id : string;
  p_razorpay_payment_id : option string;
  p_razorpay_order_id : option string;
  p_razorpay_signature : option string;
  p_amount : Z;
  p_status : string;
  p_created_at : Z
}.

(** The two tables; [orders] is keyed by its TEXT PRIMARY KEY. *)
Record database : Type := {
  orders : gmap string order;
  payments : list payment
}.

Definition with_orders (m : gmap string order) (d : database) : database :=
  {| orders := m; payments := payments d |}.

(** [init_db]: creates both tables, empty, when the file does not
    exist ([None]); leaves an existing file as it is. *)
Definition init_db (file : option database) : database :=
  match file with
  | None => {| orders := ∅; payments := [] |}
  | Some d => d
  end.

(** What binding a Python value to the [?] of [WHERE id = ?] yields.
    [sqlite3] binds [str] as TEXT, [int] and [bool] as a 64-bit INTEGER
    (raising [OverflowError] beyond), [float] as REAL, [None] as NULL,
    and raises for a [list] or a [dict]; SQLite then compares a number
    with the TEXT column through its text rendering. *)
Inductive sql_key : Type :=
| KeyText (k : string)
| KeyNull
| KeyRaises.

Definition sqlite_key `{Runtime} (v : json) : sql_key :=
  match v with
  | JStr s => KeyText s
  | JInt z => if int64 z then KeyText (pretty z) else KeyRaises
  | JBool b => KeyText (if b then "1" else "0")
  | JFloat f => match sqlite_real_text f with Some t => KeyText t | None => KeyNull end
  | JNull => KeyNull
  | JArr _ | JObj _ => KeyRaises
  end.

(** The row the INSERT of [insert_order] writes at time [now]: the six
    values given, [payment_id] NULL, both timestamps by default. *)
Definition new_order (now : Z) (order_id name email whatsapp : string) (amount : Z)
    : order :=
  {| o_id := order_id; o_user_name := name; o_user_email := email;
     o_user_whatsapp := whatsapp; o_amount := amount;
     o_status := "created"; o_payment_id := None;
     o_created_at := now; o_updated_at := now |}.

(** [insert_order]: [now] is the [CURRENT_TIMESTAMP] of the statement.
    The INSERT raises, and the helper returns [False], when the primary
    key exists or [amount] does not fit SQLite's INTEGER.  (Failures of
    the file itself, a locked or unwritable database, are not modelled.) *)
Definition insert_order (now : Z) (order_id name email whatsapp : string)
    (amount : Z) (d : database) : bool * database :=
  if int64 amount && bool_decide (orders d !! order_id = None) then
    (true,
     with_orders (<[order_id := new_order now order_id name email whatsapp amount]>
                    (orders d)) d)
  else (false, d).

Definition set_payment (now : Z) (payment_id status : string) (o : order) : order :=
  {| o_id := o_id o; o_user_name := o_user_name o;
     o_user_email := o_user_email o; o_user_whatsapp := o_user_whatsapp o;
     o_amount := o_amount o; o_status := status;
     o_payment_id := Some payment_id;
     o_created_at := o_created_at o; o_updated_at := now |}.

(** [update_order_payment]: an UPDATE whose WHERE matches no row is not
    an error; the helper returns [False] only when binding raises. *)
Definition update_order_payment `{Runtime} (now : Z) (order_id : json)
    (payment_id status : string) (d : database) : bool * database :=
  match sqlite_key order_id with
  | KeyText k => (true, with_orders (alter (set_payment now payment_id status) k (orders d)) d)
  | KeyNull => (true, d)
  | KeyRaises => (false, d)
  end.

(** [get_order] *)
Definition get_order `{Runtime} (order_id : json) (d : database) : option order :=
  match sqlite_key order_id with
  | KeyText k => orders d !! k
  | KeyNull | KeyRaises => None
  end.

(** ** The notifier and the gateway *)

(** The three messages the handlers build, by their interpolated values. *)
Inductive email_template : Type :=
| FreeAccess (name order_id : string)
| PaymentConfirmed (name : string) (order_id : json) (amount : Z) (payment_id : string)
| BookDelivery (name : string) (order_id : json) (amount : Z) (status : string).

Record notification : Type := {
  n_recipient : json;
  n_template : email_template;
  n_drive_link : string;
  n_async : bool        (* sent by [send_email_async] *)
}.

(** The argument of [razorpay_client.order.create]. *)
Record gateway_order : Type := {
  g_amount : Z;
  g_currency : string;
  g_receipt : string;
  g_notes : string * string * string   (* user_name, user_email, user_whatsapp *)
}.

(** Everything a handler can change. *)
Record world : Type := {
  db : database;
  outbox : list notification;          (* calls of the notifier, oldest first *)
  gateway_log : list gateway_order     (* calls of the gateway client *)
}.

Definition with_db (d : database) (w : world) : world :=
  {| db := d; outbox := outbox w; gateway_log := gateway_log w |}.

(** [os.getenv] of the variables the handlers read. *)
Record config : Type := {
  RAZORPAY_KEY_ID : option string;
  RAZORPAY_KEY_SECRET : option string;
  BOOK_DRIVE_LINK : option string
}.

(** What one request reads from outside the process. *)
Record env : Type := {
  unix_time : Z;                              (* int(time.time()) *)
  db_time : Z;                                (* CURRENT_TIMESTAMP *)
  gateway_reply : gateway_order -> option string  (* the created order's id; None: raises *)
}.

Definition default_drive_link : string :=
  "https://drive.google.com/file/d/1lBH-fdCcyfp6_ZUpph6nviZklm5d3Mwt/view?usp=drive_link".

Definition drive_link (cfg : config) : string :=
  default default_drive_link (BOOK_DRIVE_LINK cfg).

(** [send_email]: its result is ignored by every caller and it raises
    nothing; what remains is that the notifier was called. *)
Definition send_email (recipient : json) (t : email_template) (link : string)
    (w : world) : world :=
  {| db := db w;
     outbox := outbox w ++ [{| n_recipient := recipient; n_template := t;
                               n_drive_link := link; n_async := false |}];
     gateway_log := gateway_log w |}.

(** [send_email_async]: the same call, handed to a daemon thread. *)
Definition send_email_async (recipient : json) (t : email_template) (link : string)
    (w : world) : world :=
  {| db := db w;
     outbox := outbox w ++ [{| n_recipient := recipient; n_template := t;
                               n_drive_link := link; n_async := true |}];
     gateway_log := gateway_log w |}.

(** [razorpay_client.order.create(data)['id']] *)
Definition gateway_create (e : env) (data : gateway_order) (w : world)
    : result string * world :=
  let w' := {| db := db w; outbox := outbox w;
               gateway_log := gateway_log w ++ [data] |} in
  match gateway_reply e data with
  | Some gid => (Ok gid, w')
  | None => (Raise GatewayError, w')
  end.

(** ** Requests and responses *)

Record request : Type := {
  is_json : bool;            (* the content type announces JSON *)
  body : option json         (* the decoded body; None: not valid JSON *)
}.

(** [request.get_json()]: raises on a body that is not JSON.  (A Flask
    that answers [None] for a foreign content type makes the handler
    raise [AttributeError] at the next line instead: the same 500.) *)
Definition get_json (r : request) : result json :=
  if is_json r then
    match body r with
    | Some v => Ok v
    | None => Raise BadRequest
    end
  else Raise UnsupportedMediaType.

(** The projection [get_order_details] returns: no [payment_id], no
    [user_whatsapp]. *)
Record order_view : Type := {
  v_id : string;
  v_user_name : string;
  v_user_email : string;
  v_amount : Z;
  v_status : string;
  v_created_at : Z
}.

(** The JSON bodies the handlers answer with. *)
Inductive payload : Type :=
| Failure (message : string)                 (* status error, fixed message *)
| FailureExn (prefix : string) (e : exn)     (* status error, prefix + str(e) *)
| FreeOrder (order_id : string)              (* amount 0, is_free True *)
| PaidOrder (order_id : string) (key_id : option string) (amount : Z)
| Verified (payment_id : string) (order_id : json)
| OrderDetails (o : order_view)
| BookSent (order_id : json).

Record response : Type := {
  code : Z;
  content : payload
}.

Definition reply (c : Z) (p : payload) : response := {| code := c; content := p |}.

(** The handlers' [except Exception as e: return jsonify(...), 500]. *)
Definition or_500 (prefix : string) (r : result response * world) : response * world :=
  match r with
  | (Ok resp, w) => (resp, w)
  | (Raise x, w) => (reply 500 (FailureExn prefix x), w)
  end.

(** ** The handlers *)

Definition required_fields : list string := ["name"; "email"; "whatsapp"; "amount"].

(** Lines 344-347 of [create_order]: the four reads, in order. *)
Definition read_order_fields `{Runtime} (data : json) : result (string * string * string * Z) :=
  name <- bind (py_get data "name") py_strip_value ;;
  email <- bind (py_get data "email") py_strip_value ;;
  whatsapp <- bind (py_get data "whatsapp") py_strip_value ;;
  amount <- bind (py_get data "amount") py_int ;;
  Ok (name, email, whatsapp, amount).

(** Lines 349-430 of [create_order]: the checks on the values read,
    then the free or the paid branch. *)
Definition place_order `{Runtime} (cfg : config) (e : env)
    (name email whatsapp : string) (amount : Z) (w : world) : result response * world :=
  if negb (py_str_contains "@" email) || negb (py_str_contains "." email) then
    (Ok (reply 400 (Failure "Invalid email address")), w)
  else if amount <? 0 then
    (Ok (reply 400 (Failure "Amount cannot be negative")), w)
  else if amount =? 0 then
    let order_id := "FREE-" +:+ pretty (unix_time e) in
    match insert_order (db_time e) order_id name email whatsapp 0 (db w) with
    | (true, d) =>
        let w1 := send_email (JStr email) (FreeAccess name order_id)
                    (drive_link cfg) (with_db d w) in
        (Ok (reply 200 (FreeOrder order_id)), w1)
    | (false, d) =>
        (Ok (reply 500 (Failure "Failed to create order")), with_db d w)
    end
  else
    let razorpay_order_data :=
      {| g_amount := amount * 100; g_currency := "INR";
         g_receipt := "order-" +:+ pretty (unix_time e);
         g_notes := (name, email, whatsapp) |} in
    match gateway_create e razorpay_order_data w with
    | (Raise x, w1) => (Raise x, w1)
    | (Ok order_id, w1) =>
        match insert_order (db_time e) order_id name email whatsapp amount (db w1) with
        | (true, d) =>
            (Ok (reply 200 (PaidOrder order_id (RAZORPAY_KEY_ID cfg) amount)),
             with_db d w1)
        | (false, d) =>
            (Ok (reply 500 (Failure "Failed to save order")), with_db d w1)
        end
    end.

(** The body of the [try] of [create_order]. *)
Definition create_order_try `{Runtime} (cfg : config) (e : env) (req : request)
    (w : world) : result response * world :=
  if negb (is_json req) then
    (Ok (reply 415 (Failure "Content-Type must be application/json")), w)
  else
  match get_json req with
  | Raise x => (Raise x, w)
  | Ok data =>
  match py_all_in required_fields data with
  | Raise x => (Raise x, w)
  | Ok false =>
      (Ok (reply 400 (Failure "Missing required fields: name, email, whatsapp, amount")), w)
  | Ok true =>
  match read_order_fields data with
  | Raise x => (Raise x, w)
  | Ok (name, email, whatsapp, amount) => place_order cfg e name email whatsapp amount w
  end end end.

Definition create_order `{Runtime} (cfg : config) (e : env) (req : request)
    (w : world) : response * world :=
  or_500 "Server error: " (create_order_try cfg e req w).

(** Lines 455-458 of [verify_payment]. *)
Definition read_payment_fields (data : json) : result (json * json * json * json) :=
  razorpay_order_id <- py_get data "razorpay_order_id" ;;
  razorpay_payment_id <- py_get data "razorpay_payment_id" ;;
  razorpay_signature <- py_get data "razorpay_signature" ;;
  our_order_id <- py_get data "order_id" ;;
  Ok (razorpay_order_id, razorpay_payment_id, razorpay_signature, our_order_id).

(** Lines 467-472: the digest the signature is compared with. *)
Definition expected_signature `{Runtime} (secret razorpay_order_id razorpay_payment_id : string)
    : string :=
  hmac_sha256_hex secret ((razorpay_order_id +:+ "|") +:+ razorpay_payment_id).

(** Lines 474-510 of [verify_payment]: the comparison and its two
    branches. *)
Definition settle_payment `{Runtime} (cfg : config) (e : env) (secret o p : string)
    (razorpay_signature our_order_id : json) (w : world) : response * world :=
  if py_str_eq (expected_signature secret o p) razorpay_signature then
    let d := snd (update_order_payment (db_time e) our_order_id p "paid" (db w)) in
    let w1 := with_db d w in
    let w2 :=
      match get_order our_order_id d with
      | Some order =>
          send_email_async (JStr (o_user_email order))
            (PaymentConfirmed (o_user_name order) our_order_id (o_amount order) p)
            (drive_link cfg) w1
      | None => w1
      end in
    (reply 200 (Verified p our_order_id), w2)
  else
    (reply 400 (Failure "Payment verification failed - Invalid signature"), w).

(** The body of the [try] of [verify_payment].  The two concatenations
    of line 467 raise [TypeError] unless both ids are [str]; [.encode()]
    on an unset secret raises [AttributeError]. *)
Definition verify_payment_try `{Runtime} (cfg : config) (e : env) (req : request)
    (w : world) : result response * world :=
  match bind (get_json req) read_payment_fields with
  | Raise x => (Raise x, w)
  | Ok (razorpay_order_id, razorpay_payment_id, razorpay_signature, our_order_id) =>
      if negb (py_truthy razorpay_order_id && py_truthy razorpay_payment_id
               && py_truthy razorpay_signature && py_truthy our_order_id) then
        (Ok (reply 400 (Failure "Missing payment verification data")), w)
      else
      match razorpay_order_id, razorpay_payment_id with
      | JStr o, JStr p =>
          match RAZORPAY_KEY_SECRET cfg with
          | None => (Raise AttributeError, w)
          | Some secret =>
              let (resp, w') :=
                settle_payment cfg e secret o p razorpay_signature our_order_id w in
              (Ok resp, w')
          end
      | _, _ => (Raise TypeError, w)
      end
  end.

Definition verify_payment `{Runtime} (cfg : config) (e : env) (req : request)
    (w : world) : response * world :=
  or_500 "Verification error: " (verify_payment_try cfg e req w).

Definition view_of (o : order) : order_view :=
  {| v_id := o_id o; v_user_name := o_user_name o; v_user_email := o_user_email o;
     v_amount := o_amount o; v_status := o_status o; v_created_at := o_created_at o |}.

(** [get_order_details]; the id is the path segment, a [str]. *)
Definition get_order_details `{Runtime} (order_id : string) (w : world) : response * world :=
  match get_order (JStr order_id) (db w) with
  | None => (reply 404 (Failure "Order not found"), w)
  | Some order => (reply 200 (OrderDetails (view_of order)), w)
  end.

(** The body of the [try] of [send_book]. *)
Definition send_book_try `{Runtime} (cfg : config) (req : request) (w : world)
    : result response * world :=
  match (data <- get_json req ;;
         order_id <- py_get data "order_id" ;;
         email <- py_get data "email" ;;
         Ok (order_id, email)) with
  | Raise x => (Raise x, w)
  | Ok (order_id, email) =>
      if negb (py_truthy order_id) || negb (py_truthy email) then
        (Ok (reply 400 (Failure "Missing order_id or email")), w)
      else
        match get_order order_id (db w) with
        | None => (Ok (reply 404 (Failure "Order not found")), w)
        | Some order =>
            let w1 := send_email email
                        (BookDelivery (o_user_name order) order_id (o_amount order)
                           (o_status order))
                        (drive_link cfg) w in
            (Ok (reply 200 (BookSent order_id)), w1)
        end
  end.

Definition send_book `{Runtime} (cfg : config) (req : request) (w : world)
    : response * world :=
  or_500 "Error: " (send_book_try cfg req w).

(** ** The service as a transition system *)

Inductive operation : Type :=
| CreateOrder (req : request)
| VerifyPayment (req : request)
| GetOrder (order_id : string)
| SendBook (req : request).

Definition handle `{Runtime} (cfg : config) (e : env) (op : operation) (w : world)
    : response * world :=
  match op with
  | CreateOrder req => create_order cfg e req w
  | VerifyPayment req => verify_payment cfg e req w
  | GetOrder order_id => get_order_details order_id w
  | SendBook req => send_book cfg req w
  end.

(** The process starts on a fresh database file. *)
Definition initial_world : world :=
  {| db := init_db None; outbox := []; gateway_log := [] |}.

Inductive reachable `{Runtime} (cfg : config) : world -> Prop :=
| reach_init : reachable cfg initial_world
| reach_step w e op :
    reachable cfg w -> reachable cfg (snd (handle cfg e op w)).

(** ** Requests that pass the presence checks *)

(** [req] makes [verify_payment] reach the comparison of line 474 with
    gateway ids [O] and [P], signature [G] and local order id [L]: the
    four fields are truthy and the two ids are strings. *)
Definition payment_fields (req : request) (O P : string) (G L : json) : Prop :=
  bind (get_json req) read_payment_fields = Ok (JStr O, JStr P, G, L)
  /\ py_truthy (JStr O) && py_truthy (JStr P) && py_truthy G && py_truthy L = true.

(** [req] makes [create_order] reach line 349 with these four values:
    a JSON body holding the four keys, three of them strings (here
    already stripped) and an amount [int] accepts. *)
Definition order_fields `{Runtime} (req : request) (name email whatsapp : string)
    (amount : Z) : Prop :=
  exists data,
    is_json req = true /\ body req = Some data
    /\ py_all_in required_fields data = Ok true
    /\ read_order_fields data = Ok (name, email, whatsapp, amount).

(** The request also passes the checks of lines 350 and 357. *)
Definition valid_order `{Runtime} (req : request) (name email whatsapp : string)
    (amount : Z) : Prop :=
  order_fields req name email whatsapp amount
  /\ py_str_contains "@" email = true /\ py_str_contains "." email = true
  /\ 0 <= amount.

(** ** A runtime to execute the handlers with

    SHA-256 (FIPS 180-4) and HMAC (RFC 2104) on bytes, as [hashlib] and
    [hmac] compute them; 32-bit words are [Z] reduced modulo 2^32. *)

Module Sha256.

Local Open Scope list_scope.

Definition wrap (x : Z) : Z := x mod 4294967296.

Definition rotr (n x : Z) : Z :=
  wrap (Z.lor (Z.shiftr x n) (Z.shiftl x (32 - n))).

Definition xor3 (x y z : Z) : Z := Z.lxor (Z.lxor x y) z.

Definition ch (x y z : Z) : Z :=
  Z.lxor (Z.land x y) (Z.land (Z.lxor x 4294967295) z).

Definition maj (x y z : Z) : Z :=
  xor3 (Z.land x y) (Z.land x z) (Z.land y z).

Definition big_sigma0 (x : Z) : Z := xor3 (rotr 2 x) (rotr 13 x) (rotr 22 x).
Definition big_sigma1 (x : Z) : Z := xor3 (rotr 6 x) (rotr 11 x) (rotr 25 x).
Definition small_sigma0 (x : Z) : Z := xor3 (rotr 7 x) (rotr 18 x) (Z.shiftr x 3).
Definition small_sigma1 (x : Z) : Z := xor3 (rotr 17 x) (rotr 19 x) (Z.shiftr x 10).

(** The first 32 bits of the fractional parts of the cube roots of the
    first 64 primes, and below of the square roots of the first 8. *)
Definition round_constants : list Z :=
  [1116352408; 1899447441; 3049323471; 3921009573; 961987163; 1508970993;
   2453635748; 2870763221; 3624381080; 310598401; 607225278; 1426881987;
   1925078388; 2162078206; 2614888103; 3248222580; 3835390401; 4022224774;
   264347078; 604807628; 770255983; 1249150122; 1555081692; 1996064986;
   2554220882; 2821834349; 2952996808; 3210313671; 3336571891; 3584528711;
   113926993; 338241895; 666307205; 773529912; 1294757372; 1396182291;
   1695183700; 1986661051; 2177026350; 2456956037; 2730485921; 2820302411;
   3259730800; 3345764771; 3516065817; 3600352804; 4094571909; 275423344;
   430227734; 506948616; 659060556; 883997877; 958139571; 1322822218;
   1537002063; 1747873779; 1955562222; 2024104815; 2227730452; 2361852424;
   2428436474; 2756734187; 3204031479; 3329325298].

Definition initial_hash : list Z :=
  [1779033703; 3144134277; 1013904242; 2773480762;
   1359893119; 2600822924; 528734635; 1541459225].

(** Big-endian bytes of [x], [n] of them. *)
Fixpoint be_bytes (n : nat) (x : Z) : list Z :=
  match n with
  | O => []
  | S n' => (Z.shiftr x (8 * Z.of_nat n')) mod 256 :: be_bytes n' x
  end.

(** The message, the byte 0x80, zeros up to 56 modulo 64, and the bit
    length on eight bytes. *)
Definition pad (msg : list Z) : list Z :=
  let len := Z.of_nat (List.length msg) in
  msg ++ [128] ++ List.repeat 0 (Z.to_nat ((55 - len) mod 64)) ++ be_bytes 8 (8 * len).

(** Big-endian 32-bit words of a byte list whose length is a multiple of 4. *)
Fixpoint words (fuel : nat) (l : list Z) : list Z :=
  match fuel, l with
  | S fuel', a :: b :: c :: d :: rest =>
      (((a * 256 + b) * 256 + c) * 256 + d) :: words fuel' rest
  | _, _ => []
  end.

(** The message schedule, newest word first: [recent] holds
    W(t-1), W(t-2), ... *)
Fixpoint extend (n : nat) (recent : list Z) : list Z :=
  match n with
  | O => recent
  | S n' =>
      let w := wrap (small_sigma1 (nth 1 recent 0) + nth 6 recent 0
                     + small_sigma0 (nth 14 recent 0) + nth 15 recent 0) in
      extend n' (w :: recent)
  end.

Definition schedule (block : list Z) : list Z := rev (extend 48 (rev block)).

Definition round (s : list Z) (kw : Z * Z) : list Z :=
  match s with
  | [a; b; c; d; e; f; g; h] =>
      let t1 := h + big_sigma1 e + ch e f g + fst kw + snd kw in
      let t2 := big_sigma0 a + maj a b c in
      [wrap (t1 + t2); a; b; c; wrap (d + t1); e; f; g]
  | _ => s
  end.

Definition compress (h : list Z) (block : list Z) : list Z :=
  let s := fold_left round (combine round_constants (schedule block)) h in
  List.map (fun p => wrap (fst p + snd p)) (combine h s).

Fixpoint blocks (fuel : nat) (h : list Z) (ws : list Z) : list Z :=
  match fuel with
  | O => h
  | S fuel' =>
      match ws with
      | [] => h
      | _ => blocks fuel' (compress h (firstn 16 ws)) (skipn 16 ws)
      end
  end.

(** The 32 bytes of the digest. *)
Definition digest (msg : list Z) : list Z :=
  let p := pad msg in
  let ws := words (List.length p) p in
  flat_map (be_bytes 4) (blocks (List.length ws) initial_hash ws).

(** RFC 2104 with block size 64: a longer key is hashed first. *)
Definition hmac (key msg : list Z) : list Z :=
  let k0 := if (64 <? List.length key)%nat then digest key else key in
  let k := k0 ++ List.repeat 0 (64 - List.length k0) in
  digest (List.map (Z.lxor 92) k ++ digest (List.map (Z.lxor 54) k ++ msg)).

Definition hex_digit (x : Z) : ascii :=
  ascii_of_N (Z.to_N (if x <? 10 then 48 + x else 87 + x)).

Fixpoint hex (l : list Z) : string :=
  match l with
  | [] => EmptyString
  | b :: rest => String (hex_digit (b / 16)) (String (hex_digit (b mod 16)) (hex rest))
  end.

Definition bytes (s : string) : list Z := List.map Z.of_N (bytes_of s).

Definition hmac_hex (key msg : string) : string := hex (hmac (bytes key) (bytes msg)).

End Sha256.

(** [int(s)] for a [str], as CPython 3.11 reads it in base 10.  The
    string is first brought to ASCII: a character below U+0080 stands
    for itself, a white-space character beyond is a blank, a decimal
    digit of any script is its ASCII digit, and any other character is
    refused.  Around the literal only U+0009..U+000D and U+0020 are
    skipped ([int] does not take U+001C..U+001F for white space,
    [strip] does); the literal is an optional sign and decimal digits
    with single underscores between them, of at most 4300 digits. *)

(** The zeros of the decimal digits of Unicode 14.0; each is followed by
    its digits 1 to 9. *)
Definition digit_zeros : list N :=
  [48; 1632; 1776; 1984; 2406; 2534; 2662; 2790; 2918; 3046; 3174; 3302;
   3430; 3558; 3664; 3792; 3872; 4160; 4240; 6112; 6160; 6470; 6608; 6784;
   6800; 6992; 7088; 7232; 7248; 42528; 43216; 43264; 43472; 43504; 43600;
   44016; 65296; 66720; 68912; 69734; 69872; 69942; 70096; 70384; 70736;
   70864; 71248; 71360; 71472; 71904; 72016; 72784; 73040; 73120; 92768;
   92864; 93008; 120782; 120792; 120802; 120812; 120822; 123200; 123632;
   125264; 130032]%N.

Definition digit_value (cp : N) : option N :=
  (fun z => cp - z)%N
    <$> List.find (fun z => (z <=? cp) && (cp <? z + 10))%N digit_zeros.

(** [str.isspace] beyond ASCII, by code point. *)
Definition unicode_space (cp : N) : bool :=
  ((cp =? 133) || (cp =? 160) || (cp =? 5760)
   || (8192 <=? cp) && (cp <=? 8202)
   || (cp =? 8232) || (cp =? 8233) || (cp =? 8239) || (cp =? 8287)
   || (cp =? 12288))%N.

Definition continuation (b : N) : bool := ((128 <=? b) && (b <? 192))%N.

(** The code point at the head of a UTF-8 byte list, and the bytes
    after it. *)
Definition utf8_head (l : list N) : option (N * list N) :=
  match l with
  | b :: r =>
      if (b <? 128)%N then Some (b, r)
      else if ((194 <=? b) && (b <? 224))%N then
        match r with
        | c :: r1 =>
            if continuation c then Some (((b - 192) * 64 + (c - 128))%N, r1) else None
        | [] => None
        end
      else if ((224 <=? b) && (b <? 240))%N then
        match r with
        | c :: d :: r2 =>
            if continuation c && continuation d then
              Some (((b - 224) * 4096 + (c - 128) * 64 + (d - 128))%N, r2)
            else None
        | _ => None
        end
      else if ((240 <=? b) && (b <? 245))%N then
        match r with
        | c :: d :: f :: r3 =>
            if continuation c && continuation d && continuation f then
              Some (((b - 240) * 262144 + (c - 128) * 4096 + (d - 128) * 64
                     + (f - 128))%N, r3)
            else None
        | _ => None
        end
      else None
  | [] => None
  end.

(** The ASCII bytes [int] parses for the UTF-8 bytes [l]; [fuel] bounds
    the number of characters. *)
Fixpoint int_ascii (fuel : nat) (l : list N) : option (list N) :=
  match fuel, l with
  | _, [] => Some []
  | O, _ :: _ => None
  | S fuel', _ :: _ =>
      match utf8_head l with
      | Some (cp, rest) =>
          let b :=
            if (cp <? 128)%N then Some cp
            else if unicode_space cp then Some 32%N
            else (fun d => 48 + d)%N <$> digit_value cp in
          match b, int_ascii fuel' rest with
          | Some b, Some bs => Some (b :: bs)
          | _, _ => None
          end
      | None => None
      end
  end.

Definition int_space (b : N) : bool := ((9 <=? b) && (b <=? 13) || (b =? 32))%N.

Fixpoint skip_space (l : list N) : list N :=
  match l with
  | b :: rest => if int_space b then skip_space rest else l
  | [] => []
  end.

Fixpoint decimal (acc : Z) (digits : N) (after_digit : bool) (l : list N) : option Z :=
  match l with
  | [] => if after_digit && (digits <=? 4300)%N then Some acc else None
  | b :: rest =>
      if (b =? 95)%N then
        if after_digit then decimal acc digits false rest else None
      else if ((48 <=? b) && (b <=? 57))%N then
        decimal (10 * acc + (Z.of_N b - 48)) (digits + 1)%N true rest
      else None
  end.

Definition py_int_of_str (s : string) : option Z :=
  match int_ascii (List.length (bytes_of s)) (bytes_of s) with
  | Some a =>
      match rev (skip_space (rev (skip_space a))) with
      | b :: rest =>
          if (b =? 45)%N then Z.opp <$> decimal 0 0 false rest
          else if (b =? 43)%N then decimal 0 0 false rest
          else decimal 0 0 false (b :: rest)
      | [] => None
      end
  | None => None
  end.

(** The runtime the examples below are executed with: the real
    HMAC-SHA256 and [int] as above.  SQLite's rendering of a REAL as
    text is not reproduced: a [float] bound as a key is answered as
    matching no row, where SQLite matches the row whose id is the
    number's text.  The runs below bind strings only. *)
Definition py_runtime : Runtime :=
  {| hmac_sha256_hex := Sha256.hmac_hex;
     int_of_str := py_int_of_str;
     sqlite_real_text := fun _ => None |}.

(** ** The lifecycle invariant of a stored order *)

(** [payment_id] is NULL exactly while the order is [created]. *)
Definition order_consistent (o : order) : Prop :=
  (o_status o = "created" /\ o_payment_id o = None)
  \/ (o_status o = "paid" /\ is_Some (o_payment_id o)).

(** How one request may change the orders table: not at all, by one new
    [created] row under a free key, or by one UPDATE to [paid]. *)
Definition orders_step (now : Z) (m m' : gmap string order) : Prop :=
  m' = m
  \/ (exists k o, m !! k = None /\ o_status o = "created" /\ o_payment_id o = None
                  /\ m' = <[k := o]> m)
  \/ (exists k p, m' = alter (set_payment now p "paid") k m).

(** ** Concrete configurations, requests and worlds *)

Module Example.

Definition cfg : config :=
  {| RAZORPAY_KEY_ID := Some "rzp_test_id";
     RAZORPAY_KEY_SECRET := Some "rzp_secret";
     BOOK_DRIVE_LINK := None |}.

(** Both clocks read [t]; the gateway answers [reply] to every call. *)
Definition at_time (t : Z) (reply : option string) : env :=
  {| unix_time := t; db_time := t; gateway_reply := fun _ => reply |}.

Definition order_request (name email whatsapp amount : json) : request :=
  {| is_json := true;
     body := Some (JObj [("name", name); ("email", email);
                         ("whatsapp", whatsapp); ("amount", amount)]) |}.

Definition payment_request (O P G L : json) : request :=
  {| is_json := true;
     body := Some (JObj [("razorpay_order_id", O); ("razorpay_payment_id", P);
                         ("razorpay_signature", G); ("order_id", L)]) |}.

(** HMAC-SHA256 of [order_abc|pay_xyz] under [rzp_secret]. *)
Definition sig_xyz : string :=
  "310fb1455cda8ffce912e91b1766316b16bf7244701ca75091b1afcc114497bc".

(** HMAC-SHA256 of [order_abc|pay_2] under [rzp_secret]. *)
Definition sig_2 : string :=
  "90ee447fee9ff7c3d0202895cd8b4630afe683b9e6aa94d66879b23d6ecde17c".

(** HMAC-SHA256 of [order_abc|pay_xyz] under [other_secret]. *)
Definition sig_other : string :=
  "f785dbbd0d7d01cb7fc5fd40d62edbc1895fb00b7e8fe3eefd46e7bd1912fe98".

Definition alice : request :=
  order_request (JStr "Alice") (JStr "alice@x.com") (JStr "+911234567890") (JInt 99).

Definition alice_free : request :=
  order_request (JStr "Alice") (JStr "alice@x.com") (JStr "+911234567890") (JInt 0).

Definition pay_xyz : request :=
  payment_request (JStr "order_abc") (JStr "pay_xyz") (JStr sig_xyz) (JStr "order_abc").

Definition pay_2 : request :=
  payment_request (JStr "order_abc") (JStr "pay_2") (JStr sig_2) (JStr "order_abc").

(** Alice's paid order [order_abc] after creation, and after the
    payment [pay_xyz] was verified. *)
Definition w_created : world :=
  snd (handle (H := py_runtime) cfg (at_time 1700000000 (Some "order_abc"))
         (CreateOrder alice) initial_world).

Definition w_paid : world :=
  snd (handle (H := py_runtime) cfg (at_time 1700000060 None)
         (VerifyPayment pay_xyz) w_created).

(** The row of [order_abc] in [w_created] and in [w_paid]. *)
Definition created_abc : order :=
  new_order 1700000000 "order_abc" "Alice" "alice@x.com" "+911234567890" 99.

Definition paid_abc : order := set_payment 1700000060 "pay_xyz" "paid" created_abc.

End Example.

(** ** The response hook [after_request]

    The hook receives the response every view returned and only adds
    headers to it; what is modelled is the header list, in order.  The
    name tests are werkzeug's: [name in response.headers] compares
    names after [lower()] (header names are ASCII), and
    [response.headers.add] appends a pair. *)

Definition allowed_origins : list string :=
  ["https://destinycode4u.vercel.app"; "http://localhost:3000";
   "http://localhost:5000"; "http://localhost:3002";
   "https://piyush-joshi1.github.io"].

Definition lower_byte (b : N) : N :=
  if ((65 <=? b) && (b <=? 90))%N then (b + 32)%N else b.

(** [s.lower()] on an ASCII name. *)
Definition py_lower (s : string) : string :=
  str_of (List.map lower_byte (bytes_of s)).

(** [name in response.headers] *)
Definition has_header (name : string) (headers : list (string * string)) : bool :=
  existsb (fun h => String.eqb (py_lower (fst h)) (py_lower name)) headers.

(** [if name not in response.headers: response.headers.add(name, value)] *)
Definition add_if_missing (name value : string) (headers : list (string * string))
    : list (string * string) :=
  if has_header name headers then headers else (headers ++ [(name, value)])%list.

(** [after_request]; [origin] is [request.headers.get('Origin')]. *)
Definition after_request (origin : option string) (headers : list (string * string))
    : list (string * string) :=
  let headers :=
    match origin with
    | Some o =>
        if existsb (String.eqb o) allowed_origins then
          let h1 := add_if_missing "Access-Control-Allow-Origin" o headers in
          let h2 := add_if_missing "Access-Control-Allow-Credentials" "true" h1 in
          let h3 := add_if_missing "Access-Control-Allow-Headers"
                      "Content-Type,Authorization,X-Requested-With" h2 in
          add_if_missing "Access-Control-Allow-Methods" "GET,POST,PUT,DELETE,OPTIONS" h3
        else headers
    | None => headers
    end in
  add_if_missing "Content-Type" "application/json" headers.

(** The five names the hook may add. *)
Definition hook_headers : list string :=
  ["Access-Control-Allow-Origin"; "Access-Control-Allow-Credentials";
   "Access-Control-Allow-Headers"; "Access-Control-Allow-Methods"; "Content-Type"].

(** ** The page [send_email] builds *)

Inductive html_page : Type :=
| BookReadyPage          (* "Your Book is Ready!", with the download link *)
| FreeAccessPage.        (* "Free Access Confirmed!", without a link *)

(** Lines 216-259 of [send_email]: [if drive_link:] chooses the page. *)
Definition html_page_of (drive_link : string) : html_page :=
  if String.eqb drive_link "" then FreeAccessPage else BookReadyPage.

(** ** What every stored row satisfies *)

(** The row under key [k]: its id is the key, its amount is a
    non-negative 64-bit integer, its email passed the check of line 350,
    and a row of amount 0 carries a [FREE-] id. *)
Definition row_well_formed (k : string) (o : order) : Prop :=
  o_id o = k
  /\ 0 <= o_amount o /\ int64 (o_amount o) = true
  /\ py_str_contains "@" (o_user_email o) = true
  /\ py_str_contains "." (o_user_email o) = true
  /\ (o_amount o = 0 -> exists t : Z, k = "FREE-" +:+ pretty t).

(** [o'] is the row [o] up to the three columns an UPDATE writes. *)
Definition same_purchase (o o' : order) : Prop :=
  o_id o' = o_id o /\ o_user_name o' = o_user_name o
  /\ o_user_email o' = o_user_email o /\ o_user_whatsapp o' = o_user_whatsapp o
  /\ o_amount o' = o_amount o /\ o_created_at o' = o_created_at o.

(** The notification [verify_payment] sends for the stored row [o]. *)
Definition confirmation (cfg : config) (o : order) (L : json) (P : string) : notification :=
  {| n_recipient := JStr (o_user_email o);
     n_template := PaymentConfirmed (o_user_name o) L (o_amount o) P;
     n_drive_link := drive_link cfg; n_async := true |}.

(** The world after a sequence of requests, each with what it reads
    from outside. *)
Fixpoint run `{Runtime} (cfg : config) (steps : list (env * operation)) (w : world)
    : world :=
  match steps with
  | [] => w
  | (e, op) :: rest => run cfg rest (snd (handle cfg e op w))
  end.

(** ** A second customer *)

Module Scenario.
Import Example.

Definition bob : request :=
  order_request (JStr "Bob") (JStr "bob@y.org") (JStr "+15550100") (JInt 4999).

Definition created_def : order :=
  new_order 1700000030 "order_def" "Bob" "bob@y.org" "+15550100" 4999.

(** [w_created] after Bob's order [order_def] was created as well. *)
Definition w_two : world :=
  snd (handle (H := py_runtime) cfg (at_time 1700000030 (Some "order_def"))
         (CreateOrder bob) w_created).

(** Alice's signed payment for [order_abc], naming Bob's order. *)
Definition pay_xyz_for_def : request :=
  payment_request (JStr "order_abc") (JStr "pay_xyz") (JStr sig_xyz) (JStr "order_def").

Definition book_request (order_id email : json) : request :=
  {| is_json := true; body := Some (JObj [("order_id", order_id); ("email", email)]) |}.

End Scenario.

(** * Properties *)

(** ** Records, strings and the store helpers *)

Lemma with_db_same (w : world) : with_db (db w) w = w.
Proof. by destruct w. Qed.

Lemma with_orders_same (d : database) : with_orders (orders d) d = d.
Proof. by destruct d. Qed.

Lemma append_assoc (a b c : string) : (a +:+ b) +:+ c = a +:+ b +:+ c.
Proof.
  induction a as [|x a IH]; [done |].
  change (String x ((a +:+ b) +:+ c) = String x (a +:+ b +:+ c)).
  by rewrite IH.
Qed.

Lemma py_str_eq_true (s : string) (v : json) :
  py_str_eq s v = true <-> v = JStr s.
Proof.
  destruct v; simpl; try (split; [discriminate | discriminate]).
  rewrite String.eqb_eq. split; [by intros -> | by intros [= ->]].
Qed.

Lemma py_str_eq_false (s : string) (v : json) :
  py_str_eq s v = false <-> v <> JStr s.
Proof.
  rewrite <- py_str_eq_true. by destruct (py_str_eq s v).
Qed.

Lemma insert_order_new (now : Z) (k name email whatsapp : string) (amount : Z)
    (d : database) :
  int64 amount = true -> orders d !! k = None ->
  insert_order now k name email whatsapp amount d
  = (true, with_orders (<[k := new_order now k name email whatsapp amount]> (orders d)) d).
Proof.
  intros Ha Hk. unfold insert_order. rewrite Ha. by rewrite bool_decide_eq_true_2.
Qed.

Lemma insert_order_refused (now : Z) (k name email whatsapp : string) (amount : Z)
    (d : database) :
  int64 amount = false \/ is_Some (orders d !! k) ->
  insert_order now k name email whatsapp amount d = (false, d).
Proof.
  intros [Ha | [o Hk]]; unfold insert_order.
  - by rewrite Ha.
  - rewrite bool_decide_eq_false_2; [by rewrite andb_false_r | by rewrite Hk].
Qed.

(** [insert_order] either refuses and changes nothing, or adds one
    [created] row under a key that was free. *)
Lemma insert_order_cases (now : Z) (k name email whatsapp : string) (amount : Z)
    (d : database) :
  insert_order now k name email whatsapp amount d = (false, d)
  \/ (orders d !! k = None
      /\ insert_order now k name email whatsapp amount d
         = (true, with_orders (<[k := new_order now k name email whatsapp amount]>
                                 (orders d)) d)).
Proof.
  destruct (int64 amount) eqn:Ha; [| left; apply insert_order_refused; by left].
  destruct (orders d !! k) as [o|] eqn:Hk.
  - left. apply insert_order_refused. right. by rewrite Hk.
  - right. split; [done |]. by apply insert_order_new.
Qed.

(** ** The primitives on known values *)

Example sha256_abc :
  Sha256.hex (Sha256.digest (Sha256.bytes "abc"))
  = "ba7816bf8f01cfea414140de5dae2223b00361a396177a9cb410ff61f20015ad".
Proof. by vm_compute. Qed.

Example sha256_two_blocks :
  Sha256.hex (Sha256.digest
                (Sha256.bytes "abcdbcdecdefdefgefghfghighijhijkijkljklmklmnlmnomnopnopq"))
  = "248d6a61d20638b8e5c026930c3e6039a33ce45964ff2167f6ecedd419db06c1".
Proof. by vm_compute. Qed.

(** RFC 4231, test case 2. *)
Example hmac_rfc4231_jefe :
  Sha256.hmac_hex "Jefe" "what do ya want for nothing?"
  = "5bdcc146bf60754e6a042426089575c75a003f089d2739839dec58b964ec3843".
Proof. by vm_compute. Qed.

Example example_signatures :
  Sha256.hmac_hex "rzp_secret" "order_abc|pay_xyz" = Example.sig_xyz
  /\ Sha256.hmac_hex "rzp_secret" "order_abc|pay_2" = Example.sig_2
  /\ Sha256.hmac_hex "other_secret" "order_abc|pay_xyz" = Example.sig_other.
Proof. split; [| split]; by vm_compute. Qed.

Example strip_blanks : py_strip "  Alice Liddell	 " = "Alice Liddell".
Proof. by vm_compute. Qed.

Example strip_all_blank : py_strip "   " = "".
Proof. by vm_compute. Qed.

Example int_of_decimal :
  py_int_of_str " -1_000 " = Some (-1000)
  /\ py_int_of_str "007" = Some 7
  /\ py_int_of_str "1__0" = None
  /\ py_int_of_str "abc" = None
  /\ py_int_of_str "+ 5" = None
  /\ py_int_of_str "5_" = None.
Proof. by vm_compute. Qed.

(** U+001F before the digit; U+2028 after it; the Arabic-Indic 3 and the
    Devanagari 12; a superscript two; U+FEFF before the digit. *)
Example int_of_other_characters :
  py_int_of_str (str_of [31; 53]%N) = None
  /\ py_int_of_str (str_of [53; 226; 128; 168]%N) = Some 5
  /\ py_int_of_str (str_of [45; 217; 163]%N) = Some (-3)
  /\ py_int_of_str (str_of [224; 165; 167; 224; 165; 168]%N) = Some 12
  /\ py_int_of_str (str_of [194; 178]%N) = None
  /\ py_int_of_str (str_of [239; 187; 191; 53]%N) = None.
Proof. by vm_compute. Qed.

Example int_of_long_literals :
  py_int_of_str (str_of (repeat 48%N 4300)) = Some 0
  /\ py_int_of_str (str_of (repeat 48%N 4301)) = None.
Proof. by vm_compute. Qed.

Example int_of_float_truncates :
  int_of_float (S754_finite false 199 (-1)) = Ok 99        (* 99.5 *)
  /\ int_of_float (S754_finite true 3 (-1)) = Ok (-1)      (* -1.5 *)
  /\ int_of_float (S754_finite false 3 2) = Ok 12.
Proof. by vm_compute. Qed.

Section Handlers.
Context `{RT : Runtime}.

(** *** The store helpers on a present or an absent row *)

Lemma get_order_Some (L : json) (d : database) (o : order) :
  get_order L d = Some o <-> exists k, sqlite_key L = KeyText k /\ orders d !! k = Some o.
Proof.
  unfold get_order. destruct (sqlite_key L) as [k| |]; split.
  - intros Hk. by exists k.
  - by intros (k' & [= <-] & Hk).
  - done.
  - by intros (k' & [=] & _).
  - done.
  - by intros (k' & [=] & _).
Qed.

Lemma update_order_payment_payments now L p s d :
  payments (snd (update_order_payment now L p s d)) = payments d.
Proof. unfold update_order_payment. by destruct (sqlite_key L). Qed.

Lemma update_order_payment_present now L p s d o :
  get_order L d = Some o ->
  get_order L (snd (update_order_payment now L p s d)) = Some (set_payment now p s o).
Proof.
  intros (k & HL & Hk)%get_order_Some.
  unfold get_order, update_order_payment. rewrite HL. simpl.
  rewrite lookup_alter_eq. by rewrite Hk.
Qed.

Lemma update_order_payment_absent now L p s d :
  get_order L d = None ->
  snd (update_order_payment now L p s d) = d.
Proof.
  unfold get_order, update_order_payment.
  destruct (sqlite_key L) as [k| |]; [| done | done].
  intros Hk. simpl. rewrite alter_id; [apply with_orders_same |].
  intros o Ho. congruence.
Qed.

(** The orders after an UPDATE: the same map, or the old one altered
    at one key. *)
Lemma update_order_payment_orders now L p s d :
  orders (snd (update_order_payment now L p s d)) = orders d
  \/ exists k, orders (snd (update_order_payment now L p s d))
               = alter (set_payment now p s) k (orders d).
Proof.
  unfold update_order_payment.
  destruct (sqlite_key L) as [k| |]; [right; by exists k | by left | by left].
Qed.

(** *** The handlers on requests that pass the presence checks *)

Lemma verify_payment_settles cfg e req w S O P G L :
  RAZORPAY_KEY_SECRET cfg = Some S ->
  payment_fields req O P G L ->
  verify_payment cfg e req w = settle_payment cfg e S O P G L w.
Proof.
  intros HS [Hf Ht]. unfold verify_payment, verify_payment_try.
  rewrite Hf, Ht, HS. simpl. by destruct (settle_payment _ _ _ _ _ _ _ _).
Qed.

Lemma create_order_places cfg e req w name email whatsapp amount :
  order_fields req name email whatsapp amount ->
  create_order cfg e req w
  = or_500 "Server error: " (place_order cfg e name email whatsapp amount w).
Proof.
  intros (data & Hj & Hb & Hall & Hread).
  unfold create_order, create_order_try, get_json.
  by rewrite Hj, Hb, Hall, Hread.
Qed.

Lemma settle_payment_accepts cfg e S O P L w :
  settle_payment cfg e S O P (JStr (expected_signature S O P)) L w
  = (reply 200 (Verified P L),
     let d := snd (update_order_payment (db_time e) L P "paid" (db w)) in
     match get_order L d with
     | Some order =>
         send_email_async (JStr (o_user_email order))
           (PaymentConfirmed (o_user_name order) L (o_amount order) P)
           (drive_link cfg) (with_db d w)
     | None => with_db d w
     end).
Proof.
  unfold settle_payment.
  by rewrite (proj2 (py_str_eq_true _ _) eq_refl).
Qed.

(** Unless it answers 200, [verify_payment] returns the world it was
    given. *)
Lemma verify_payment_refusal cfg e req w :
  code (fst (verify_payment cfg e req w)) <> 200 ->
  snd (verify_payment cfg e req w) = w.
Proof.
  unfold verify_payment, verify_payment_try.
  destruct (bind (get_json req) read_payment_fields) as [[[[O P] G] L] | x]; [| done].
  destruct (negb _); [done |].
  destruct O; try done. destruct P; try done.
  destruct (RAZORPAY_KEY_SECRET cfg) as [S |]; [| done].
  unfold settle_payment. by destruct (py_str_eq _ G).
Qed.

(** *** Signature verification *)

(** C1. The check of [verify_payment] accepts a supplied signature
    string [G] exactly when [G] is the hex HMAC-SHA256 digest of
    [O|P] under the configured secret [S]: the comparison of line 474
    holds iff [G] is that digest; the digest of the same message
    under another secret, being another string, is rejected; and a
    request that carries the four fields is answered 200 iff [G] is
    the digest. *)
Theorem signature_accepted_iff_digest (S O P G : string) :
  (py_str_eq (expected_signature S O P) (JStr G) = true
     <-> G = hmac_sha256_hex S (O +:+ "|" +:+ P))
  /\ (forall S',
        hmac_sha256_hex S' (O +:+ "|" +:+ P) <> hmac_sha256_hex S (O +:+ "|" +:+ P) ->
        py_str_eq (expected_signature S O P)
          (JStr (hmac_sha256_hex S' (O +:+ "|" +:+ P))) = false)
  /\ (forall cfg e w req L,
        RAZORPAY_KEY_SECRET cfg = Some S ->
        payment_fields req O P (JStr G) L ->
        (code (fst (verify_payment cfg e req w)) = 200
           <-> G = hmac_sha256_hex S (O +:+ "|" +:+ P))).
Proof.
  assert (Hcheck : forall G', py_str_eq (expected_signature S O P) (JStr G') = true
                     <-> G' = hmac_sha256_hex S (O +:+ "|" +:+ P)).
  { intros G'. rewrite py_str_eq_true. unfold expected_signature.
    rewrite append_assoc. split; [by intros [= ->] | by intros ->]. }
  split; [apply Hcheck |]. split.
  - intros S' Hne. apply py_str_eq_false. intros [= Heq]. apply Hne.
    unfold expected_signature in Heq. by rewrite append_assoc in Heq.
  - intros cfg e w req L HS Hf.
    rewrite (verify_payment_settles _ _ _ _ _ _ _ _ _ HS Hf).
    rewrite <- Hcheck. unfold settle_payment.
    destruct (py_str_eq _ _); simpl; split; [done | done | discriminate | discriminate].
Qed.

(** C2. A request whose four fields are present and whose signature
    is not the expected digest is answered with the signature
    mismatch error (400), and the world after it is the world before:
    no order is touched and the notifier is not called. *)
Theorem mismatch_changes_nothing cfg e req w S O P G L :
  RAZORPAY_KEY_SECRET cfg = Some S ->
  payment_fields req O P G L ->
  G <> JStr (hmac_sha256_hex S (O +:+ "|" +:+ P)) ->
  verify_payment cfg e req w
  = (reply 400 (Failure "Payment verification failed - Invalid signature"), w).
Proof.
  intros HS Hf Hne. rewrite (verify_payment_settles _ _ _ _ _ _ _ _ _ HS Hf).
  unfold settle_payment.
  rewrite (proj2 (py_str_eq_false _ _)); [done |].
  unfold expected_signature. by rewrite append_assoc.
Qed.

(** C6. Two calls of [verify_payment] with the same valid arguments
    on an existing order both answer 200, and the order reads [paid]
    after the first and after the second. *)
Theorem verify_twice_stays_paid cfg e1 e2 req w S O P L o :
  RAZORPAY_KEY_SECRET cfg = Some S ->
  payment_fields req O P (JStr (expected_signature S O P)) L ->
  get_order L (db w) = Some o ->
  let r1 := verify_payment cfg e1 req w in
  let r2 := verify_payment cfg e2 req (snd r1) in
  fst r1 = reply 200 (Verified P L)
  /\ fst r2 = reply 200 (Verified P L)
  /\ (exists o1, get_order L (db (snd r1)) = Some o1
                 /\ o_status o1 = "paid" /\ o_payment_id o1 = Some P)
  /\ (exists o2, get_order L (db (snd r2)) = Some o2
                 /\ o_status o2 = "paid" /\ o_payment_id o2 = Some P).
Proof.
  intros HS Hf Ho r1 r2. subst r1 r2.
  rewrite !(verify_payment_settles _ _ _ _ _ _ _ _ _ HS Hf), !settle_payment_accepts.
  simpl.
  pose proof (update_order_payment_present (db_time e1) L P "paid" _ _ Ho) as H1.
  rewrite H1. simpl.
  pose proof (update_order_payment_present (db_time e2) L P "paid" _ _ H1) as H2.
  rewrite H2. simpl.
  repeat split; eauto.
Qed.

(** *** What a request can do to the database *)

Lemma snd_or_500 prefix (r : result response * world) :
  snd (or_500 prefix r) = snd r.
Proof. by destruct r as [[resp | x] w]. Qed.

Lemma place_order_frame cfg e name email whatsapp amount w :
  let w' := snd (place_order cfg e name email whatsapp amount w) in
  payments (db w') = payments (db w)
  /\ orders_step (db_time e) (orders (db w)) (orders (db w')).
Proof.
  unfold place_order.
  destruct (_ || _); [by split; [| left] |].
  destruct (amount <? 0); [by split; [| left] |].
  destruct (amount =? 0).
  - destruct (insert_order_cases (db_time e) ("FREE-" +:+ pretty (unix_time e))
                name email whatsapp 0 (db w)) as [-> | [Hk ->]]; simpl.
    + by split; [| left].
    + split; [done |]. right; left. do 2 eexists. split; [exact Hk |]. by repeat split.
  - unfold gateway_create. destruct (gateway_reply e _) as [gid |]; simpl.
    + destruct (insert_order_cases (db_time e) gid name email whatsapp amount (db w))
        as [-> | [Hk ->]]; simpl.
      * by split; [| left].
      * split; [done |]. right; left. do 2 eexists. split; [exact Hk |]. by repeat split.
    + by split; [| left].
Qed.

Lemma create_order_frame cfg e req w :
  let w' := snd (create_order cfg e req w) in
  payments (db w') = payments (db w)
  /\ orders_step (db_time e) (orders (db w)) (orders (db w')).
Proof.
  unfold create_order. rewrite snd_or_500. unfold create_order_try.
  destruct (negb (is_json req)); [by split; [| left] |].
  destruct (get_json req) as [data | x]; [| by split; [| left]].
  destruct (py_all_in required_fields data) as [[|] | x]; [| by split; [| left] ..].
  destruct (read_order_fields data) as [[[[name email] whatsapp] amount] | x];
    [| by split; [| left]].
  apply place_order_frame.
Qed.

Lemma settle_payment_frame cfg e S O P G L w :
  let w' := snd (settle_payment cfg e S O P G L w) in
  payments (db w') = payments (db w)
  /\ orders_step (db_time e) (orders (db w)) (orders (db w')).
Proof.
  unfold settle_payment. destruct (py_str_eq _ G); [| by split; [| left]].
  simpl.
  set (d := snd (update_order_payment (db_time e) L P "paid" (db w))).
  assert (Hdb : db (match get_order L d with
                    | Some order =>
                        send_email_async (JStr (o_user_email order))
                          (PaymentConfirmed (o_user_name order) L (o_amount order) P)
                          (drive_link cfg) (with_db d w)
                    | None => with_db d w
                    end) = d) by by destruct (get_order L d).
  rewrite Hdb. subst d. split; [apply update_order_payment_payments |].
  destruct (update_order_payment_orders (db_time e) L P "paid" (db w)) as [-> | [k ->]];
    [by left | right; right; eauto].
Qed.

Lemma verify_payment_frame cfg e req w :
  let w' := snd (verify_payment cfg e req w) in
  payments (db w') = payments (db w)
  /\ orders_step (db_time e) (orders (db w)) (orders (db w')).
Proof.
  unfold verify_payment. rewrite snd_or_500. unfold verify_payment_try.
  destruct (bind (get_json req) read_payment_fields) as [[[[O P] G] L] | x];
    [| by split; [| left]].
  destruct (negb _); [by split; [| left] |].
  destruct O; try (by split; [| left]).
  destruct P; try (by split; [| left]).
  destruct (RAZORPAY_KEY_SECRET cfg) as [S |]; [| by split; [| left]].
  pose proof (settle_payment_frame cfg e S s s0 G L w) as Hs.
  by destruct (settle_payment cfg e S s s0 G L w).
Qed.

Lemma send_book_frame cfg req w : db (snd (send_book cfg req w)) = db w.
Proof.
  unfold send_book. rewrite snd_or_500. unfold send_book_try.
  destruct (bind _ _) as [[order_id email] | x]; [| done].
  destruct (_ || _); [done |].
  by destruct (get_order order_id (db w)).
Qed.

Lemma get_order_details_frame order_id w : snd (get_order_details order_id w) = w.
Proof. unfold get_order_details. by destruct (get_order _ _). Qed.

Lemma handle_frame cfg e op w :
  let w' := snd (handle cfg e op w) in
  payments (db w') = payments (db w)
  /\ orders_step (db_time e) (orders (db w)) (orders (db w')).
Proof.
  destruct op as [req | req | order_id | req]; simpl.
  - apply create_order_frame.
  - apply verify_payment_frame.
  - rewrite get_order_details_frame. by split; [| left].
  - rewrite send_book_frame. by split; [| left].
Qed.

Lemma set_payment_paid now p o : order_consistent (set_payment now p "paid" o).
Proof. right. by split; [| eexists]. Qed.

(** One step keeps a stored order, unchanged or marked [paid]. *)
Lemma orders_step_lookup now m m' k o :
  orders_step now m m' -> m !! k = Some o ->
  exists o', m' !! k = Some o'
             /\ (o' = o \/ exists p, o' = set_payment now p "paid" o).
Proof.
  intros [-> | [(k' & o0 & Hfree & _ & _ & ->) | (k' & p & ->)]] Hk.
  - eauto.
  - exists o. split; [| by left].
    rewrite lookup_insert_ne; [done | congruence].
  - destruct (decide (k' = k)) as [-> | Hne].
    + exists (set_payment now p "paid" o). rewrite lookup_alter_eq, Hk. eauto.
    + exists o. rewrite lookup_alter_ne; eauto.
Qed.

Lemma orders_step_consistent now m m' :
  orders_step now m m' ->
  (forall k o, m !! k = Some o -> order_consistent o) ->
  forall k o, m' !! k = Some o -> order_consistent o.
Proof.
  intros [-> | [(k' & o0 & Hfree & Hs & Hp & ->) | (k' & p & ->)]] Hm k o Hk.
  - eauto.
  - destruct (decide (k' = k)) as [-> | Hne].
    + rewrite lookup_insert_eq in Hk. injection Hk as <-. by left.
    + rewrite lookup_insert_ne in Hk; eauto.
  - destruct (decide (k' = k)) as [-> | Hne].
    + rewrite lookup_alter_eq in Hk.
      destruct (m !! k) as [o1 |]; [| done].
      injection Hk as <-. apply set_payment_paid.
    + rewrite lookup_alter_ne in Hk; eauto.
Qed.

Lemma reachable_consistent cfg w :
  reachable cfg w -> forall k o, orders (db w) !! k = Some o -> order_consistent o.
Proof.
  induction 1 as [| w e op Hw IH].
  - intros k o. simpl. by rewrite lookup_empty.
  - eapply orders_step_consistent; [apply handle_frame | done].
Qed.

(** *** The UPDATE of a payment *)

(** C4, as the code has it.  [update_order_payment] on an id that is
    not stored changes nothing and still reports success, and
    [verify_payment] with a valid signature and such an id answers 200
    without any effect; on a stored id the helper reports success and
    the row then carries the given [payment_id] and [status] and the
    time of the statement as [updated_at], its other six columns being
    as they were; every other row and the payments table are left
    alone. *)
Theorem update_of_absent_order_succeeds now k p s d :
  (orders d !! k = None -> update_order_payment now (JStr k) p s d = (true, d))
  /\ (forall o, orders d !! k = Some o ->
        exists d', update_order_payment now (JStr k) p s d = (true, d')
          /\ orders d' !! k
             = Some {| o_id := o_id o; o_user_name := o_user_name o;
                       o_user_email := o_user_email o;
                       o_user_whatsapp := o_user_whatsapp o;
                       o_amount := o_amount o;
                       o_status := s; o_payment_id := Some p;
                       o_created_at := o_created_at o; o_updated_at := now |}
          /\ (forall k', k' <> k -> orders d' !! k' = orders d !! k')
          /\ payments d' = payments d)
  /\ (forall cfg e req w S O P,
        RAZORPAY_KEY_SECRET cfg = Some S ->
        payment_fields req O P (JStr (expected_signature S O P)) (JStr k) ->
        orders (db w) !! k = None ->
        verify_payment cfg e req w = (reply 200 (Verified P (JStr k)), w)).
Proof.
  split; [| split].
  - intros Hk. unfold update_order_payment. simpl.
    rewrite alter_id; [by rewrite with_orders_same |]. intros o Ho. congruence.
  - intros o Hk. eexists. split; [reflexivity |]. simpl.
    split; [by rewrite lookup_alter_eq, Hk |].
    split; [| done]. intros k' Hne. by rewrite lookup_alter_ne.
  - intros cfg e req w S O P HS Hf Hk.
    rewrite (verify_payment_settles _ _ _ _ _ _ _ _ _ HS Hf), settle_payment_accepts.
    assert (Hnone : get_order (JStr k) (db w) = None) by done.
    rewrite (update_order_payment_absent _ _ _ _ _ Hnone). simpl.
    by rewrite Hnone, with_db_same.
Qed.

(** *** Creating orders *)

Lemma missing_field_detected (l : list (string * json)) (f : string) :
  In f required_fields -> dict_lookup f l = None ->
  py_all_in required_fields (JObj l) = Ok false.
Proof.
  intros Hin Hf. simpl in Hin. simpl.
  destruct (dict_lookup "name" l) eqn:H1; simpl;
    [| done].
  destruct (dict_lookup "email" l) eqn:H2; simpl; [| done].
  destruct (dict_lookup "whatsapp" l) eqn:H3; simpl; [| done].
  destruct (dict_lookup "amount" l) eqn:H4; simpl; [| done].
  destruct Hin as [<- | [<- | [<- | [<- | []]]]]; congruence.
Qed.

Lemma dict_order_fields req l n0 e0 w0 v amount :
  is_json req = true -> body req = Some (JObj l) ->
  dict_lookup "name" l = Some (JStr n0) ->
  dict_lookup "email" l = Some (JStr e0) ->
  dict_lookup "whatsapp" l = Some (JStr w0) ->
  dict_lookup "amount" l = Some v ->
  py_int v = Ok amount ->
  order_fields req (py_strip n0) (py_strip e0) (py_strip w0) amount.
Proof.
  intros Hj Hb Hn He Hw Hv Ha. exists (JObj l).
  split; [done |]. split; [done |]. split.
  - simpl. by rewrite Hn, He, Hw, Hv.
  - unfold read_order_fields. simpl. rewrite Hn, He, Hw, Hv. simpl. by rewrite Ha.
Qed.

Lemma place_order_not_400 cfg e name email whatsapp amount w :
  py_str_contains "@" email = true -> py_str_contains "." email = true ->
  0 <= amount ->
  code (fst (or_500 "Server error: " (place_order cfg e name email whatsapp amount w)))
  <> 400.
Proof.
  intros Hat Hdot Ha. unfold place_order. rewrite Hat, Hdot. simpl.
  rewrite (proj2 (Z.ltb_ge amount 0) Ha).
  destruct (amount =? 0).
  - by destruct (insert_order _ _ _ _ _ _ _) as [[|] d].
  - destruct (gateway_create _ _ _) as [[gid | x] w1]; [| done].
    by destruct (insert_order _ _ _ _ _ _ _) as [[|] d].
Qed.

(** C5, as the code has it.  A request with a JSON object body is
    refused with a 400 and no effect when one of the four keys is
    missing; when the four are present, the three texts are strings
    and the amount is an integer, it is refused with a 400 and no
    effect exactly when the stripped email lacks ['@'] or ['.'] or
    the amount is negative.  Nothing requires the stripped name or
    whatsapp to be non-empty: with a good email and an amount that is
    not negative the answer is never a 400, whatever the two are. *)
Theorem create_order_validation cfg e req w l :
  is_json req = true ->
  body req = Some (JObj l) ->
  ((exists f, In f required_fields /\ dict_lookup f l = None) ->
     create_order cfg e req w
     = (reply 400 (Failure "Missing required fields: name, email, whatsapp, amount"), w))
  /\ (forall n0 e0 w0 amount,
        dict_lookup "name" l = Some (JStr n0) ->
        dict_lookup "email" l = Some (JStr e0) ->
        dict_lookup "whatsapp" l = Some (JStr w0) ->
        dict_lookup "amount" l = Some (JInt amount) ->
        let ok_email :=
          py_str_contains "@" (py_strip e0) && py_str_contains "." (py_strip e0) in
        let r := create_order cfg e req w in
        (ok_email = false -> r = (reply 400 (Failure "Invalid email address"), w))
        /\ (ok_email = true -> amount < 0 ->
              r = (reply 400 (Failure "Amount cannot be negative"), w))
        /\ (ok_email = true -> 0 <= amount -> code (fst r) <> 400)).
Proof.
  intros Hj Hb. split.
  - intros (f & Hin & Hf). unfold create_order, create_order_try, get_json.
    rewrite Hj, Hb. simpl negb. cbv iota.
    by rewrite (missing_field_detected l f Hin Hf).
  - intros n0 e0 w0 amount Hn He Hw Hv ok_email r. subst r.
    rewrite (create_order_places cfg e req w _ _ _ _
               (dict_order_fields _ _ _ _ _ _ _ Hj Hb Hn He Hw Hv eq_refl)).
    split; [| split].
    + intros Hbad. unfold place_order.
      destruct (py_str_contains "@" (py_strip e0)),
               (py_str_contains "." (py_strip e0)); done.
    + intros [Hat Hdot]%andb_true_iff Hneg. unfold place_order.
      rewrite Hat, Hdot. simpl. by rewrite (proj2 (Z.ltb_lt amount 0) Hneg).
    + intros [Hat Hdot]%andb_true_iff Hpos. by apply place_order_not_400.
Qed.

(** C7. A valid request with amount 0 gets the id [FREE-<unix
    seconds>] and never reaches the gateway client.  When the store
    takes the row, the orders table then holds under that id the row
    with the request's name, email and whatsapp, amount 0, status
    [created], a NULL payment id and the time of the statement, every
    other row and the payments table being as before, and the notifier
    is called once, synchronously, with the free-access message; when
    the store refuses it (the id is taken), the answer is the
    persistence error and nothing has changed. *)
Theorem free_order_bypasses_gateway cfg e req w name email whatsapp :
  valid_order req name email whatsapp 0 ->
  let order_id := "FREE-" +:+ pretty (unix_time e) in
  let r := create_order cfg e req w in
  gateway_log (snd r) = gateway_log w
  /\ (orders (db w) !! order_id = None ->
        fst r = reply 200 (FreeOrder order_id)
        /\ orders (db (snd r)) !! order_id
           = Some {| o_id := order_id; o_user_name := name; o_user_email := email;
                     o_user_whatsapp := whatsapp; o_amount := 0;
                     o_status := "created"; o_payment_id := None;
                     o_created_at := db_time e; o_updated_at := db_time e |}
        /\ (forall k', k' <> order_id ->
              orders (db (snd r)) !! k' = orders (db w) !! k')
        /\ payments (db (snd r)) = payments (db w)
        /\ outbox (snd r)
           = (outbox w ++ [{| n_recipient := JStr email;
                              n_template := FreeAccess name order_id;
                              n_drive_link := drive_link cfg;
                              n_async := false |}])%list)
  /\ (is_Some (orders (db w) !! order_id) ->
        r = (reply 500 (Failure "Failed to create order"), w)).
Proof.
  intros (Hf & Hat & Hdot & _) order_id r. subst r.
  rewrite (create_order_places _ _ _ _ _ _ _ _ Hf).
  unfold place_order. rewrite Hat, Hdot. simpl. fold order_id.
  split; [| split].
  - destruct (insert_order_cases (db_time e) order_id name email whatsapp 0 (db w))
      as [-> | [_ ->]]; done.
  - intros Hk.
    rewrite (insert_order_new (db_time e) order_id name email whatsapp 0 (db w)
               eq_refl Hk).
    simpl. split; [done |]. split; [by rewrite lookup_insert_eq |].
    split; [| done]. intros k' Hne. by rewrite lookup_insert_ne.
  - intros Hk. rewrite (insert_order_refused _ _ _ _ _ _ _ (or_intror Hk)). simpl.
    by rewrite with_db_same.
Qed.

(** C8. A valid request with a positive amount calls the gateway
    client once, with [amount * 100]; the id the gateway returns is
    the id of the answer and the key under which the orders table then
    holds the row with that id, the request's name, email, whatsapp
    and amount, status [created], a NULL payment id and the time of
    the statement, every other row and the payments table being as
    before.  (When the store refuses the row, because the id is taken
    or the amount exceeds 64 bits, the answer is the persistence error
    and the database is unchanged.) *)
Theorem paid_order_uses_gateway_id cfg e req w name email whatsapp amount :
  valid_order req name email whatsapp amount ->
  0 < amount ->
  let data := {| g_amount := amount * 100; g_currency := "INR";
                 g_receipt := "order-" +:+ pretty (unix_time e);
                 g_notes := (name, email, whatsapp) |} in
  let r := create_order cfg e req w in
  gateway_log (snd r) = (gateway_log w ++ [data])%list
  /\ outbox (snd r) = outbox w
  /\ forall gid, gateway_reply e data = Some gid ->
       (int64 amount = true -> orders (db w) !! gid = None ->
          fst r = reply 200 (PaidOrder gid (RAZORPAY_KEY_ID cfg) amount)
          /\ orders (db (snd r)) !! gid
             = Some {| o_id := gid; o_user_name := name; o_user_email := email;
                       o_user_whatsapp := whatsapp; o_amount := amount;
                       o_status := "created"; o_payment_id := None;
                       o_created_at := db_time e; o_updated_at := db_time e |}
          /\ (forall k', k' <> gid -> orders (db (snd r)) !! k' = orders (db w) !! k')
          /\ payments (db (snd r)) = payments (db w))
       /\ (int64 amount = false \/ is_Some (orders (db w) !! gid) ->
             fst r = reply 500 (Failure "Failed to save order")
             /\ db (snd r) = db w).
Proof.
  intros (Hf & Hat & Hdot & _) Hpos data r. subst r.
  rewrite (create_order_places _ _ _ _ _ _ _ _ Hf).
  unfold place_order. rewrite Hat, Hdot. simpl.
  rewrite (proj2 (Z.ltb_ge amount 0)) by lia.
  rewrite (proj2 (Z.eqb_neq amount 0)) by lia.
  fold data. unfold gateway_create.
  split; [| split].
  - destruct (gateway_reply e data) as [gid |]; [| done]. simpl.
    by destruct (insert_order _ _ _ _ _ _ _) as [[|] d].
  - destruct (gateway_reply e data) as [gid |]; [| done]. simpl.
    by destruct (insert_order _ _ _ _ _ _ _) as [[|] d].
  - intros gid ->. simpl. split.
    + intros Ha Hk. rewrite (insert_order_new _ _ _ _ _ _ _ Ha Hk). simpl.
      split; [done |]. split; [by rewrite lookup_insert_eq |].
      split; [| done]. intros k' Hne. by rewrite lookup_insert_ne.
    + intros Hbad. by rewrite (insert_order_refused _ _ _ _ _ _ _ Hbad).
Qed.

(** C9. When the gateway call of a valid request with a positive
    amount fails, the answer is the handler's error for the gateway
    exception, and neither the database nor the outbox has changed. *)
Theorem gateway_failure_persists_nothing cfg e req w name email whatsapp amount :
  valid_order req name email whatsapp amount ->
  0 < amount ->
  gateway_reply e {| g_amount := amount * 100; g_currency := "INR";
                     g_receipt := "order-" +:+ pretty (unix_time e);
                     g_notes := (name, email, whatsapp) |} = None ->
  let r := create_order cfg e req w in
  fst r = reply 500 (FailureExn "Server error: " GatewayError)
  /\ db (snd r) = db w
  /\ outbox (snd r) = outbox w.
Proof.
  intros (Hf & Hat & Hdot & _) Hpos Hgw r. subst r.
  rewrite (create_order_places _ _ _ _ _ _ _ _ Hf).
  unfold place_order. rewrite Hat, Hdot. simpl.
  rewrite (proj2 (Z.ltb_ge amount 0)) by lia.
  rewrite (proj2 (Z.eqb_neq amount 0)) by lia.
  unfold gateway_create. by rewrite Hgw.
Qed.

(** *** The payments table *)

(** C10. [init_db] creates the payments table empty, no operation
    changes it, and so it is empty in every reachable state. *)
Theorem payments_never_written cfg :
  payments (init_db None) = []
  /\ (forall e op w, payments (db (snd (handle cfg e op w))) = payments (db w))
  /\ (forall w, reachable cfg w -> payments (db w) = []).
Proof.
  split; [done |]. split.
  - intros e op w. apply handle_frame.
  - induction 1 as [| w e op Hw IH]; [done |].
    by rewrite (proj1 (handle_frame cfg e op w)).
Qed.

End Handlers.

(** ** The properties on concrete runs *)

Module Run.
Import Example.

Lemma alice_valid (amount : Z) :
  0 <= amount ->
  valid_order (H := py_runtime)
    (order_request (JStr "Alice") (JStr "alice@x.com") (JStr "+911234567890")
       (JInt amount))
    "Alice" "alice@x.com" "+911234567890" amount.
Proof.
  intros Ha. split; [| by repeat split].
  eexists. split; [reflexivity |]. split; [reflexivity |]. by split.
Qed.

Lemma pay_xyz_fields :
  payment_fields pay_xyz "order_abc" "pay_xyz"
    (JStr (expected_signature (H := py_runtime) "rzp_secret" "order_abc" "pay_xyz"))
    (JStr "order_abc").
Proof. split; by vm_compute. Qed.

Lemma w_created_reachable : reachable (H := py_runtime) cfg w_created.
Proof. unfold w_created. apply reach_step, reach_init. Qed.

Lemma w_paid_reachable : reachable (H := py_runtime) cfg w_paid.
Proof. unfold w_paid. apply reach_step, w_created_reachable. Qed.

Lemma w_created_abc : orders (db w_created) !! "order_abc" = Some created_abc.
Proof. by vm_compute. Qed.

Lemma w_paid_abc : orders (db w_paid) !! "order_abc" = Some paid_abc.
Proof. by vm_compute. Qed.

(** C1 on [order_abc|pay_xyz]: the digest under [rzp_secret] is
    accepted, the digest under [other_secret] is not. *)
Lemma signature_accepted_iff_digest_run :
  py_str_eq (expected_signature (H := py_runtime) "rzp_secret" "order_abc" "pay_xyz")
    (JStr sig_xyz) = true
  /\ py_str_eq (expected_signature (H := py_runtime) "rzp_secret" "order_abc" "pay_xyz")
       (JStr (hmac_sha256_hex (Runtime := py_runtime) "other_secret"
                ("order_abc" +:+ "|" +:+ "pay_xyz"))) = false
  /\ code (fst (verify_payment (H := py_runtime) cfg (at_time 1700000060 None)
                  pay_xyz w_created)) = 200.
Proof.
  destruct (signature_accepted_iff_digest (RT := py_runtime)
              "rzp_secret" "order_abc" "pay_xyz" sig_xyz) as (Hiff & Hother & Hcode).
  split; [apply Hiff; by vm_compute |]. split.
  - apply Hother. vm_compute. discriminate.
  - refine (proj2 (Hcode cfg (at_time 1700000060 None) w_created pay_xyz
                     (JStr "order_abc") eq_refl _) _); [split |]; by vm_compute.
Defined.

(** C2 on the digest of another secret: 400, and [w_created] is
    returned as it was. *)
Lemma mismatch_changes_nothing_run :
  verify_payment (H := py_runtime) cfg (at_time 1700000060 None)
    (payment_request (JStr "order_abc") (JStr "pay_xyz") (JStr sig_other)
       (JStr "order_abc")) w_created
  = (reply 400 (Failure "Payment verification failed - Invalid signature"), w_created).
Proof.
  apply (mismatch_changes_nothing (RT := py_runtime) cfg (at_time 1700000060 None)
           _ w_created "rzp_secret" "order_abc" "pay_xyz" (JStr sig_other)
           (JStr "order_abc")).
  - reflexivity.
  - split; by vm_compute.
  - vm_compute. discriminate.
Defined.

(** C6 on [pay_xyz], verified twice a minute apart. *)
Lemma verify_twice_stays_paid_run :
  fst (verify_payment (H := py_runtime) cfg (at_time 1700000060 None) pay_xyz w_created)
  = reply 200 (Verified "pay_xyz" (JStr "order_abc"))
  /\ exists o2,
       get_order (H := py_runtime) (JStr "order_abc")
         (db (snd (verify_payment (H := py_runtime) cfg (at_time 1700000120 None) pay_xyz
                     (snd (verify_payment (H := py_runtime) cfg
                             (at_time 1700000060 None) pay_xyz w_created)))))
       = Some o2
       /\ o_status o2 = "paid".
Proof.
  destruct (verify_twice_stays_paid (RT := py_runtime) cfg (at_time 1700000060 None)
              (at_time 1700000120 None) pay_xyz w_created "rzp_secret" "order_abc"
              "pay_xyz" (JStr "order_abc") created_abc
              eq_refl pay_xyz_fields w_created_abc)
    as (H1 & _ & _ & o2 & Hget & Hpaid & _).
  split; [exact H1 | exists o2; by split].
Defined.

(** C3 as stated fails: [order_abc] is [paid] with payment id
    [pay_xyz] in the reachable state [w_paid], and a second verified
    payment [pay_2] replaces that id. *)
Lemma payment_id_overwritten :
  reachable (H := py_runtime) cfg w_paid
  /\ orders (db w_paid) !! "order_abc" = Some paid_abc
  /\ o_status paid_abc = "paid"
  /\ o_payment_id paid_abc = Some "pay_xyz"
  /\ orders (db (snd (handle (H := py_runtime) cfg (at_time 1700000120 None)
                        (VerifyPayment pay_2) w_paid))) !! "order_abc"
     = Some (set_payment 1700000120 "pay_2" "paid" paid_abc)
  /\ o_payment_id (set_payment 1700000120 "pay_2" "paid" paid_abc) = Some "pay_2".
Proof.
  split; [apply w_paid_reachable |]. split; [apply w_paid_abc |].
  split; [done |]. split; [done |]. split; [by vm_compute | done].
Qed.

(** C4 as stated fails: no order [ghost] is stored, the UPDATE for
    it returns [True], and a verification naming it answers 200. *)
Lemma update_of_absent_order_reports_success :
  orders (db initial_world) !! "ghost" = None
  /\ update_order_payment (H := py_runtime) 1700000060 (JStr "ghost") "pay_xyz" "paid"
       (db initial_world) = (true, db initial_world)
  /\ verify_payment (H := py_runtime) cfg (at_time 1700000060 None)
       (payment_request (JStr "order_abc") (JStr "pay_xyz") (JStr sig_xyz)
          (JStr "ghost")) initial_world
     = (reply 200 (Verified "pay_xyz" (JStr "ghost")), initial_world).
Proof. split; [| split]; by vm_compute. Qed.

(** C4 as amended: absent [ghost] in [w_created]; present [order_abc],
    whose row then reads [paid], [pay_xyz] and the time of the update. *)
Lemma update_of_absent_order_succeeds_run :
  update_order_payment (H := py_runtime) 1700000060 (JStr "ghost") "pay_xyz" "paid"
    (db w_created) = (true, db w_created)
  /\ exists d',
       update_order_payment (H := py_runtime) 1700000060 (JStr "order_abc") "pay_xyz"
         "paid" (db w_created) = (true, d')
       /\ orders d' !! "order_abc"
          = Some {| o_id := "order_abc"; o_user_name := "Alice";
                    o_user_email := "alice@x.com"; o_user_whatsapp := "+911234567890";
                    o_amount := 99; o_status := "paid"; o_payment_id := Some "pay_xyz";
                    o_created_at := 1700000000; o_updated_at := 1700000060 |}.
Proof.
  split.
  - by apply (update_of_absent_order_succeeds (RT := py_runtime)
                1700000060 "ghost" "pay_xyz" "paid" (db w_created)).
  - destruct (proj1 (proj2 (update_of_absent_order_succeeds (RT := py_runtime)
                1700000060 "order_abc" "pay_xyz" "paid" (db w_created)))
                created_abc w_created_abc) as (d' & Hupd & Hk & _).
    by exists d'.
Defined.

(** C5 as stated fails: a name of blanks and an empty whatsapp pass
    validation, and the order is stored with an empty name. *)
Lemma blank_name_is_accepted :
  py_strip "   " = ""
  /\ fst (create_order (H := py_runtime) cfg (at_time 1700000000 None)
            (order_request (JStr "   ") (JStr "a@b.c") (JStr "") (JInt 0))
            initial_world)
     = reply 200 (FreeOrder "FREE-1700000000")
  /\ orders (db (snd (create_order (H := py_runtime) cfg (at_time 1700000000 None)
                        (order_request (JStr "   ") (JStr "a@b.c") (JStr "") (JInt 0))
                        initial_world))) !! "FREE-1700000000"
     = Some (new_order 1700000000 "FREE-1700000000" "" "a@b.c" "" 0).
Proof. split; [| split]; by vm_compute. Qed.

(** C5 as amended: an email without ['@'] is refused, and so is the
    amount -1 with a good email. *)
Lemma create_order_validation_run :
  create_order (H := py_runtime) cfg (at_time 1700000000 None)
    (order_request (JStr "Alice") (JStr "alice.x.com") (JStr "+911234567890") (JInt 5))
    initial_world
  = (reply 400 (Failure "Invalid email address"), initial_world)
  /\ create_order (H := py_runtime) cfg (at_time 1700000000 None)
       (order_request (JStr "Alice") (JStr "alice@x.com") (JStr "+911234567890")
          (JInt (-1)))
       initial_world
     = (reply 400 (Failure "Amount cannot be negative"), initial_world).
Proof.
  split.
  - destruct (create_order_validation (RT := py_runtime) cfg (at_time 1700000000 None)
                (order_request (JStr "Alice") (JStr "alice.x.com")
                   (JStr "+911234567890") (JInt 5))
                initial_world _ eq_refl eq_refl) as [_ Hfields].
    destruct (Hfields "Alice" "alice.x.com" "+911234567890" 5
                eq_refl eq_refl eq_refl eq_refl) as (Hbad & _ & _).
    apply Hbad. by vm_compute.
  - destruct (create_order_validation (RT := py_runtime) cfg (at_time 1700000000 None)
                (order_request (JStr "Alice") (JStr "alice@x.com")
                   (JStr "+911234567890") (JInt (-1)))
                initial_world _ eq_refl eq_refl) as [_ Hfields].
    destruct (Hfields "Alice" "alice@x.com" "+911234567890" (-1)
                eq_refl eq_refl eq_refl eq_refl) as (_ & Hneg & _).
    apply Hneg; [by vm_compute | lia].
Defined.

(** C7 on Alice's free order in the initial state: no gateway call,
    the answer carries the [FREE-] id, and the row is stored under it. *)
Lemma free_order_bypasses_gateway_run :
  gateway_log (snd (create_order (H := py_runtime) cfg (at_time 1700000000 None)
                      alice_free initial_world)) = []
  /\ fst (create_order (H := py_runtime) cfg (at_time 1700000000 None)
            alice_free initial_world)
     = reply 200 (FreeOrder "FREE-1700000000")
  /\ orders (db (snd (create_order (H := py_runtime) cfg (at_time 1700000000 None)
                        alice_free initial_world))) !! "FREE-1700000000"
     = Some {| o_id := "FREE-1700000000"; o_user_name := "Alice";
               o_user_email := "alice@x.com"; o_user_whatsapp := "+911234567890";
               o_amount := 0; o_status := "created"; o_payment_id := None;
               o_created_at := 1700000000; o_updated_at := 1700000000 |}
  /\ outbox (snd (create_order (H := py_runtime) cfg (at_time 1700000000 None)
                    alice_free initial_world))
     = [{| n_recipient := JStr "alice@x.com";
           n_template := FreeAccess "Alice" "FREE-1700000000";
           n_drive_link := drive_link cfg; n_async := false |}].
Proof.
  destruct (free_order_bypasses_gateway (RT := py_runtime) cfg
              (at_time 1700000000 None) alice_free initial_world
              "Alice" "alice@x.com" "+911234567890" (alice_valid 0 ltac:(lia)))
    as (Hgw & Hnew & _).
  split; [exact Hgw |].
  destruct (Hnew eq_refl) as (Hresp & Hrow & _ & _ & Hout).
  split; [exact Hresp |]. split; [exact Hrow | exact Hout].
Defined.

(** C8 on Alice's order of 99, the gateway answering [order_abc]: one
    call with 9900, and the row is stored under [order_abc]. *)
Lemma paid_order_uses_gateway_id_run :
  gateway_log w_created
  = [{| g_amount := 9900; g_currency := "INR"; g_receipt := "order-1700000000";
        g_notes := ("Alice", "alice@x.com", "+911234567890") |}]
  /\ fst (create_order (H := py_runtime) cfg (at_time 1700000000 (Some "order_abc"))
            alice initial_world)
     = reply 200 (PaidOrder "order_abc" (Some "rzp_test_id") 99)
  /\ orders (db w_created) !! "order_abc"
     = Some {| o_id := "order_abc"; o_user_name := "Alice";
               o_user_email := "alice@x.com"; o_user_whatsapp := "+911234567890";
               o_amount := 99; o_status := "created"; o_payment_id := None;
               o_created_at := 1700000000; o_updated_at := 1700000000 |}.
Proof.
  destruct (paid_order_uses_gateway_id (RT := py_runtime) cfg
              (at_time 1700000000 (Some "order_abc")) alice initial_world
              "Alice" "alice@x.com" "+911234567890" 99
              (alice_valid 99 ltac:(lia)) ltac:(lia))
    as (Hlog & _ & Hgid).
  split; [exact Hlog |].
  destruct (Hgid "order_abc" eq_refl) as [Hok _].
  destruct (Hok eq_refl eq_refl) as (Hresp & Hrow & _).
  split; [exact Hresp | exact Hrow].
Defined.

(** C9 on the same request, the gateway failing. *)
Lemma gateway_failure_persists_nothing_run :
  fst (create_order (H := py_runtime) cfg (at_time 1700000000 None) alice initial_world)
  = reply 500 (FailureExn "Server error: " GatewayError)
  /\ db (snd (create_order (H := py_runtime) cfg (at_time 1700000000 None) alice
                initial_world)) = db initial_world.
Proof.
  destruct (gateway_failure_persists_nothing (RT := py_runtime) cfg
              (at_time 1700000000 None) alice initial_world
              "Alice" "alice@x.com" "+911234567890" 99
              (alice_valid 99 ltac:(lia)) ltac:(lia) eq_refl)
    as (Hresp & Hdb & _).
  by split.
Defined.

(** C10 on [w_paid]: after a creation and a verification the
    payments table is still empty. *)
Lemma payments_never_written_run : payments (db w_paid) = [].
Proof.
  exact (proj2 (proj2 (payments_never_written (RT := py_runtime) cfg))
           w_paid w_paid_reachable).
Defined.

End Run.

(** * Further properties of the code *)

Section Coverage.
Context `{RT : Runtime}.

(** ** The store helpers *)

Lemma insert_order_accepts now k name email whatsapp amount d d' :
  insert_order now k name email whatsapp amount d = (true, d') ->
  int64 amount = true /\ orders d !! k = None
  /\ d' = with_orders (<[k := new_order now k name email whatsapp amount]> (orders d)) d.
Proof.
  unfold insert_order. destruct (int64 amount); [| done].
  case_bool_decide as Hk; [| done]. simpl. by intros [= <-].
Qed.

(** X1. A successful [insert_order] was given an id that was free, and
    [get_order] then reads under that id the row with the six values
    given, status [created], a NULL payment id and the time of the
    statement in both timestamps; every other row and the payments
    table are as before. *)
Theorem insert_order_then_get now k name email whatsapp amount d :
  fst (insert_order now k name email whatsapp amount d) = true ->
  get_order (JStr k) d = None
  /\ get_order (JStr k) (snd (insert_order now k name email whatsapp amount d))
     = Some {| o_id := k; o_user_name := name; o_user_email := email;
               o_user_whatsapp := whatsapp; o_amount := amount;
               o_status := "created"; o_payment_id := None;
               o_created_at := now; o_updated_at := now |}
  /\ (forall k', k' <> k ->
        get_order (JStr k') (snd (insert_order now k name email whatsapp amount d))
        = get_order (JStr k') d)
  /\ payments (snd (insert_order now k name email whatsapp amount d)) = payments d.
Proof.
  destruct (insert_order now k name email whatsapp amount d) as [ok d'] eqn:Hins.
  simpl. intros ->. apply insert_order_accepts in Hins as (_ & Hk & ->).
  unfold get_order. simpl. split; [done |].
  split; [by rewrite lookup_insert_eq |].
  split; [| done]. intros k' Hne. by rewrite lookup_insert_ne.
Qed.

(** X2. The id is a primary key: once [insert_order] has stored a row,
    any further [insert_order] under the same id is refused and leaves
    the database as it is, whatever the other values are. *)
Theorem insert_order_same_id_refused now now' k name email whatsapp amount
    name' email' whatsapp' amount' d :
  fst (insert_order now k name email whatsapp amount d) = true ->
  insert_order now' k name' email' whatsapp' amount'
    (snd (insert_order now k name email whatsapp amount d))
  = (false, snd (insert_order now k name email whatsapp amount d)).
Proof.
  destruct (insert_order now k name email whatsapp amount d) as [ok d'] eqn:Hins.
  simpl. intros ->. apply insert_order_accepts in Hins as (_ & _ & ->).
  apply insert_order_refused. right. simpl. by rewrite lookup_insert_eq.
Qed.

(** X3. The last UPDATE wins: after two [update_order_payment] on the
    same id the database is what the second alone would have left, so
    nothing of the first payment id, status or time remains. *)
Theorem update_order_payment_last_write now1 now2 L p1 p2 s1 s2 d :
  snd (update_order_payment now2 L p2 s2 (snd (update_order_payment now1 L p1 s1 d)))
  = snd (update_order_payment now2 L p2 s2 d).
Proof.
  unfold update_order_payment. destruct (sqlite_key L) as [k | |]; [| done | done].
  simpl. unfold with_orders. simpl. f_equal.
  apply map_eq. intros i. destruct (decide (k = i)) as [<- | Hne].
  - rewrite !lookup_alter_eq. by destruct (orders d !! k).
  - by rewrite !lookup_alter_ne.
Qed.

(** ** [verify_payment] *)

(** Either the request is refused and nothing changes, or it carries
    four truthy fields, string ids and the digest of the two ids under
    the configured secret. *)
Lemma verify_payment_cases cfg e req w :
  (snd (verify_payment cfg e req w) = w /\ code (fst (verify_payment cfg e req w)) <> 200)
  \/ exists S O P L,
       RAZORPAY_KEY_SECRET cfg = Some S
       /\ payment_fields req O P (JStr (expected_signature S O P)) L.
Proof.
  unfold verify_payment, verify_payment_try, payment_fields.
  destruct (bind (get_json req) read_payment_fields) as [[[[O P] G] L] | x];
    [| by left].
  destruct (py_truthy O && py_truthy P && py_truthy G && py_truthy L) eqn:Ht;
    [| by left].
  simpl negb. cbv iota.
  destruct O as [| | | | o | |]; try by left.
  destruct P as [| | | | p | |]; try by left.
  destruct (RAZORPAY_KEY_SECRET cfg) as [S |]; [| by left].
  unfold settle_payment.
  destruct (py_str_eq (expected_signature S o p) G) eqn:Hsig; [| by left].
  apply py_str_eq_true in Hsig as ->. right. by exists S, o, p, L.
Qed.

Lemma settle_payment_stored cfg e S O P L w o :
  get_order L (db w) = Some o ->
  settle_payment cfg e S O P (JStr (expected_signature S O P)) L w
  = (reply 200 (Verified P L),
     {| db := snd (update_order_payment (db_time e) L P "paid" (db w));
        outbox := (outbox w ++ [confirmation cfg o L P])%list;
        gateway_log := gateway_log w |}).
Proof.
  intros Ho. rewrite settle_payment_accepts. simpl.
  by rewrite (update_order_payment_present _ _ _ _ _ _ Ho).
Qed.

Lemma settle_payment_db cfg e S O P L w :
  db (snd (settle_payment cfg e S O P (JStr (expected_signature S O P)) L w))
  = snd (update_order_payment (db_time e) L P "paid" (db w)).
Proof.
  rewrite settle_payment_accepts. simpl.
  by destruct (get_order L _).
Qed.

(** X4. A verification whose signature is the digest of
    [razorpay_order_id|razorpay_payment_id] marks the stored order that
    [order_id] names: the row then reads status [paid], the supplied
    payment id and the time of the update, its other six columns as
    before; exactly one confirmation for the stored email is handed to
    the background sender; no other row, the payments table and the
    gateway log are touched.  Nothing relates the signed gateway order
    id [O] to the local id [L]. *)
Theorem verify_payment_marks_named_order cfg e req w S O P L o :
  RAZORPAY_KEY_SECRET cfg = Some S ->
  payment_fields req O P (JStr (expected_signature S O P)) L ->
  get_order L (db w) = Some o ->
  fst (verify_payment cfg e req w) = reply 200 (Verified P L)
  /\ get_order L (db (snd (verify_payment cfg e req w)))
     = Some {| o_id := o_id o; o_user_name := o_user_name o;
               o_user_email := o_user_email o;
               o_user_whatsapp := o_user_whatsapp o;
               o_amount := o_amount o;
               o_status := "paid"; o_payment_id := Some P;
               o_created_at := o_created_at o; o_updated_at := db_time e |}
  /\ (forall k', sqlite_key L <> KeyText k' ->
        orders (db (snd (verify_payment cfg e req w))) !! k' = orders (db w) !! k')
  /\ payments (db (snd (verify_payment cfg e req w))) = payments (db w)
  /\ outbox (snd (verify_payment cfg e req w))
     = (outbox w ++ [confirmation cfg o L P])%list
  /\ gateway_log (snd (verify_payment cfg e req w)) = gateway_log w.
Proof.
  intros HS Hf Ho.
  rewrite (verify_payment_settles _ _ _ _ _ _ _ _ _ HS Hf),
    (settle_payment_stored _ _ _ _ _ _ _ _ Ho).
  simpl. split; [done |].
  split; [exact (update_order_payment_present _ _ _ _ _ _ Ho) |].
  split; [| split; [apply update_order_payment_payments | done]].
  intros k' Hne. unfold update_order_payment.
  destruct (sqlite_key L) as [k | |]; [| done | done].
  simpl. apply lookup_alter_ne. congruence.
Qed.

(** X5. Every further successful verification sends a further
    confirmation: after two calls with the same valid arguments the
    outbox has grown by two identical asynchronous messages. *)
Theorem repeated_verification_notifies_again cfg e1 e2 req w S O P L o :
  RAZORPAY_KEY_SECRET cfg = Some S ->
  payment_fields req O P (JStr (expected_signature S O P)) L ->
  get_order L (db w) = Some o ->
  outbox (snd (verify_payment cfg e2 req (snd (verify_payment cfg e1 req w))))
  = (outbox w ++ [confirmation cfg o L P; confirmation cfg o L P])%list.
Proof.
  intros HS Hf Ho.
  rewrite (verify_payment_settles _ _ _ _ _ _ _ _ _ HS Hf).
  rewrite (verify_payment_settles _ _ _ _ _ _ _ _ _ HS Hf).
  rewrite (settle_payment_stored cfg e1 _ _ _ _ _ _ Ho). simpl.
  pose proof (update_order_payment_present (db_time e1) L P "paid" _ _ Ho) as H1.
  match goal with
  | |- context [settle_payment _ _ _ _ _ _ _ ?w1] =>
      rewrite (settle_payment_stored cfg e2 S O P L w1 _ H1)
  end.
  simpl. by rewrite <- app_assoc.
Qed.

(** X6. What [verify_payment] answers when it does not verify: any
    answer but 200 leaves the world untouched; a missing, null or
    otherwise falsy field gives 400; truthy fields with a gateway id
    that is not a string give 500 ([TypeError] of the concatenation);
    an unset secret gives 500; a body that is not a JSON object gives
    500. *)
Theorem verify_payment_rejections cfg e req w :
  (code (fst (verify_payment cfg e req w)) <> 200 -> snd (verify_payment cfg e req w) = w)
  /\ (forall O P G L,
        bind (get_json req) read_payment_fields = Ok (O, P, G, L) ->
        py_truthy O && py_truthy P && py_truthy G && py_truthy L = false ->
        fst (verify_payment cfg e req w)
        = reply 400 (Failure "Missing payment verification data"))
  /\ (forall O P G L,
        bind (get_json req) read_payment_fields = Ok (O, P, G, L) ->
        py_truthy O && py_truthy P && py_truthy G && py_truthy L = true ->
        (forall o p, (O, P) <> (JStr o, JStr p)) ->
        fst (verify_payment cfg e req w)
        = reply 500 (FailureExn "Verification error: " TypeError))
  /\ (forall O P G L,
        payment_fields req O P G L ->
        RAZORPAY_KEY_SECRET cfg = None ->
        fst (verify_payment cfg e req w)
        = reply 500 (FailureExn "Verification error: " AttributeError))
  /\ (forall x,
        bind (get_json req) read_payment_fields = Raise x ->
        fst (verify_payment cfg e req w)
        = reply 500 (FailureExn "Verification error: " x)).
Proof.
  split; [apply verify_payment_refusal |].
  unfold verify_payment, verify_payment_try. repeat split.
  - intros O P G L -> Ht. by rewrite Ht.
  - intros O P G L -> Ht Hns. rewrite Ht. simpl negb. cbv iota.
    destruct O; destruct P; try done. by destruct (Hns s s0).
  - intros O P G L [-> Ht] HS. by rewrite Ht, HS.
  - by intros x ->.
Qed.

Lemma place_order_keeps_row cfg e name email whatsapp amount w k o :
  orders (db w) !! k = Some o ->
  orders (db (snd (place_order cfg e name email whatsapp amount w))) !! k = Some o.
Proof.
  intros Hk. unfold place_order.
  destruct (_ || _); [done |]. destruct (amount <? 0); [done |].
  destruct (amount =? 0).
  - destruct (insert_order_cases (db_time e) ("FREE-" +:+ pretty (unix_time e))
                name email whatsapp 0 (db w)) as [-> | [Hfree ->]]; simpl; [done |].
    rewrite lookup_insert_ne; [done | congruence].
  - unfold gateway_create. destruct (gateway_reply e _) as [gid |]; simpl; [| done].
    destruct (insert_order_cases (db_time e) gid name email whatsapp amount (db w))
      as [-> | [Hfree ->]]; simpl; [done |].
    rewrite lookup_insert_ne; [done | congruence].
Qed.

Lemma create_order_keeps_row cfg e req w k o :
  orders (db w) !! k = Some o ->
  orders (db (snd (create_order cfg e req w))) !! k = Some o.
Proof.
  intros Hk. unfold create_order. rewrite snd_or_500. unfold create_order_try.
  destruct (negb (is_json req)); [done |].
  destruct (get_json req) as [data | x]; [| done].
  destruct (py_all_in required_fields data) as [[|] | x]; [| done ..].
  destruct (read_order_fields data) as [[[[name email] whatsapp] amount] | x]; [| done].
  by apply place_order_keeps_row.
Qed.

(** X7. An order leaves [created] for [paid] in one way only: the
    operation is a [verify_payment] whose request carries the digest of
    its two gateway ids under the configured secret and names the order;
    the row then holds that request's payment id. *)
Theorem paid_only_by_valid_signature cfg e op w k o o' :
  orders (db w) !! k = Some o ->
  o_status o <> "paid" ->
  orders (db (snd (handle cfg e op w))) !! k = Some o' ->
  o_status o' = "paid" ->
  exists req S O P L,
    op = VerifyPayment req
    /\ RAZORPAY_KEY_SECRET cfg = Some S
    /\ payment_fields req O P (JStr (expected_signature S O P)) L
    /\ sqlite_key L = KeyText k
    /\ o' = set_payment (db_time e) P "paid" o.
Proof.
  intros Hk Hnot Hk' Hpaid.
  assert (Hsame : orders (db (snd (handle cfg e op w))) !! k = Some o -> False)
    by (intros Hk2; congruence).
  destruct op as [req | req | order_id | req]; simpl in *.
  - exfalso. apply Hsame. by apply create_order_keeps_row.
  - destruct (verify_payment_cases cfg e req w) as [[Hw _] | (S & O & P & L & HS & Hf)].
    + exfalso. apply Hsame. by rewrite Hw.
    + exists req, S, O, P, L. split; [done |]. split; [done |]. split; [done |].
      revert Hk' Hsame.
      rewrite (verify_payment_settles _ _ _ _ _ _ _ _ _ HS Hf), settle_payment_db.
      unfold update_order_payment.
      destruct (sqlite_key L) as [k0 | |]; simpl;
        [| intros _ Hsame; by destruct Hsame ..].
      destruct (decide (k0 = k)) as [-> | Hne].
      * rewrite lookup_alter_eq, Hk. simpl. by intros [= <-] _.
      * rewrite lookup_alter_ne by done. intros _ Hsame. by destruct Hsame.
  - exfalso. apply Hsame. by rewrite get_order_details_frame.
  - exfalso. apply Hsame. by rewrite send_book_frame.
Qed.

(** ** [send_book] and [get_order_details] *)

Lemma send_book_reads cfg req w l :
  get_json req = Ok (JObj l) ->
  send_book cfg req w
  = or_500 "Error: "
      (let order_id := default JNull (dict_lookup "order_id" l) in
       let email := default JNull (dict_lookup "email" l) in
       if negb (py_truthy order_id) || negb (py_truthy email) then
         (Ok (reply 400 (Failure "Missing order_id or email")), w)
       else
         match get_order order_id (db w) with
         | None => (Ok (reply 404 (Failure "Order not found")), w)
         | Some order =>
             (Ok (reply 200 (BookSent order_id)),
              send_email email
                (BookDelivery (o_user_name order) order_id (o_amount order)
                   (o_status order)) (drive_link cfg) w)
         end).
Proof. intros Hj. unfold send_book, send_book_try. by rewrite Hj. Qed.

(** X8. [send_book] mails the order summary to the address the request
    supplies: for a stored order and any truthy [email] value the
    notifier is called once, synchronously, with that value as
    recipient, whatever email the order was created with; it answers
    200 and leaves the database and the gateway log alone. *)
Theorem send_book_any_recipient cfg req w l order_id email o :
  get_json req = Ok (JObj l) ->
  dict_lookup "order_id" l = Some order_id ->
  dict_lookup "email" l = Some email ->
  py_truthy order_id = true ->
  py_truthy email = true ->
  get_order order_id (db w) = Some o ->
  send_book cfg req w
  = (reply 200 (BookSent order_id),
     {| db := db w;
        outbox := (outbox w
                   ++ [{| n_recipient := email;
                          n_template := BookDelivery (o_user_name o) order_id
                                          (o_amount o) (o_status o);
                          n_drive_link := drive_link cfg;
                          n_async := false |}])%list;
        gateway_log := gateway_log w |}).
Proof.
  intros Hj Hid Hem Tid Tem Ho. rewrite (send_book_reads _ _ _ _ Hj).
  rewrite Hid, Hem. simpl. by rewrite Tid, Tem, Ho.
Qed.

(** X9. When [send_book] does not answer 200 it has done nothing: a
    request whose [order_id] or [email] is missing, null or empty gets
    400, one naming an order that is not stored gets 404, a body that is
    not a JSON object gets 500, and in each case the world is returned
    as it was. *)
Theorem send_book_refusals cfg req w :
  (code (fst (send_book cfg req w)) <> 200 -> snd (send_book cfg req w) = w)
  /\ (forall l,
        get_json req = Ok (JObj l) ->
        py_truthy (default JNull (dict_lookup "order_id" l))
        && py_truthy (default JNull (dict_lookup "email" l)) = false ->
        send_book cfg req w = (reply 400 (Failure "Missing order_id or email"), w))
  /\ (forall l,
        get_json req = Ok (JObj l) ->
        py_truthy (default JNull (dict_lookup "order_id" l))
        && py_truthy (default JNull (dict_lookup "email" l)) = true ->
        get_order (default JNull (dict_lookup "order_id" l)) (db w) = None ->
        send_book cfg req w = (reply 404 (Failure "Order not found"), w))
  /\ (forall v,
        get_json req = Ok v -> (forall l, v <> JObj l) ->
        send_book cfg req w = (reply 500 (FailureExn "Error: " AttributeError), w))
  /\ (forall x,
        get_json req = Raise x ->
        send_book cfg req w = (reply 500 (FailureExn "Error: " x), w)).
Proof.
  split; [| split; [| split; [| split]]].
  - unfold send_book, send_book_try.
    destruct (bind _ _) as [[order_id email] | x]; [| done].
    destruct (_ || _); [done |].
    by destruct (get_order order_id (db w)).
  - intros l Hj Hf. rewrite (send_book_reads _ _ _ _ Hj). simpl.
    by destruct (py_truthy (default JNull (dict_lookup "order_id" l))),
               (py_truthy (default JNull (dict_lookup "email" l))).
  - intros l Hj [T1 T2]%andb_true_iff Hnone. rewrite (send_book_reads _ _ _ _ Hj).
    simpl. by rewrite T1, T2, Hnone.
  - intros v Hj Hv. unfold send_book, send_book_try. rewrite Hj.
    destruct v; try done. by destruct (Hv l).
  - intros x Hj. unfold send_book, send_book_try. by rewrite Hj.
Qed.

(** ** [create_order] *)

Lemma insert_order_rejects now k name email whatsapp amount d d' :
  insert_order now k name email whatsapp amount d = (false, d') -> d' = d.
Proof.
  unfold insert_order. destruct (_ && _); [done |]. by intros [= <-].
Qed.

Lemma email_checked (email : string) :
  negb (py_str_contains "@" email) || negb (py_str_contains "." email) = false ->
  py_str_contains "@" email = true /\ py_str_contains "." email = true.
Proof. by destruct (py_str_contains "@" email), (py_str_contains "." email). Qed.

(** The three ways [place_order] ends: a 400 with the world untouched,
    a 500 with database and outbox untouched, or a 200 with one
    well-formed [created] row added under a free id. *)
Lemma place_order_summary cfg e name email whatsapp amount w :
  let r := or_500 "Server error: " (place_order cfg e name email whatsapp amount w) in
  (code (fst r) = 400 /\ snd r = w)
  \/ (code (fst r) = 500 /\ db (snd r) = db w /\ outbox (snd r) = outbox w)
  \/ (code (fst r) = 200
      /\ exists k,
           orders (db w) !! k = None
           /\ db (snd r)
              = with_orders
                  (<[k := new_order (db_time e) k name email whatsapp amount]>
                     (orders (db w))) (db w)
           /\ row_well_formed k (new_order (db_time e) k name email whatsapp amount)
           /\ (content (fst r) = FreeOrder k
               \/ content (fst r) = PaidOrder k (RAZORPAY_KEY_ID cfg) amount)).
Proof.
  unfold place_order.
  destruct (negb (py_str_contains "@" email) || negb (py_str_contains "." email))
    eqn:Hemail; [by left |].
  apply email_checked in Hemail as [Hat Hdot].
  destruct (amount <? 0) eqn:Hneg; [by left |].
  apply Z.ltb_ge in Hneg.
  destruct (amount =? 0) eqn:Hzero.
  - apply Z.eqb_eq in Hzero as ->.
    destruct (insert_order (db_time e) ("FREE-" +:+ pretty (unix_time e))
                name email whatsapp 0 (db w)) as [[|] d'] eqn:Hins.
    + apply insert_order_accepts in Hins as (Hfit & Hfree & ->).
      right; right. split; [done |]. eexists. split; [exact Hfree |].
      split; [done |]. split; [| by left].
      repeat split; try done. intros _. by eexists.
    + apply insert_order_rejects in Hins as ->. by right; left.
  - apply Z.eqb_neq in Hzero.
    unfold gateway_create. destruct (gateway_reply e _) as [gid |]; simpl.
    + destruct (insert_order (db_time e) gid name email whatsapp amount (db w))
        as [[|] d'] eqn:Hins.
      * apply insert_order_accepts in Hins as (Hfit & Hfree & ->).
        right; right. split; [done |]. exists gid. split; [exact Hfree |].
        split; [done |]. split; [| by right].
        repeat split; try done.
      * apply insert_order_rejects in Hins as ->. by right; left.
    + by right; left.
Qed.

(** Either [create_order] stops before line 349 with a 400, 415 or 500
    and the world untouched, or it reaches [place_order]. *)
Lemma create_order_cases cfg e req w :
  (snd (create_order cfg e req w) = w
   /\ (code (fst (create_order cfg e req w)) = 400
       \/ code (fst (create_order cfg e req w)) = 415
       \/ code (fst (create_order cfg e req w)) = 500))
  \/ exists name email whatsapp amount,
       create_order cfg e req w
       = or_500 "Server error: " (place_order cfg e name email whatsapp amount w).
Proof.
  unfold create_order, create_order_try.
  destruct (negb (is_json req)); [left; split; [done | by right; left] |].
  destruct (get_json req) as [data | x]; [| left; split; [done | by right; right]].
  destruct (py_all_in required_fields data) as [[|] | x];
    [| left; split; [done | by left] | left; split; [done | by right; right]].
  destruct (read_order_fields data) as [[[[name email] whatsapp] amount] | x];
    [| left; split; [done | by right; right]].
  right. by exists name, email, whatsapp, amount.
Qed.

(** X10. A 200 from [create_order] means the order is stored: the id in
    the answer was free before, and afterwards holds a [created] row
    with a NULL payment id, the time of the insert, a non-negative
    64-bit amount and a checked email; no other row has changed. *)
Theorem create_order_success_persists cfg e req w :
  code (fst (create_order cfg e req w)) = 200 ->
  exists k o,
    (content (fst (create_order cfg e req w)) = FreeOrder k
     \/ content (fst (create_order cfg e req w))
        = PaidOrder k (RAZORPAY_KEY_ID cfg) (o_amount o))
    /\ orders (db w) !! k = None
    /\ orders (db (snd (create_order cfg e req w))) = <[k := o]> (orders (db w))
    /\ o_status o = "created" /\ o_payment_id o = None
    /\ o_created_at o = db_time e
    /\ row_well_formed k o.
Proof.
  destruct (create_order_cases cfg e req w)
    as [[_ Hcode] | (name & email & whatsapp & amount & ->)].
  - intros H200. rewrite H200 in Hcode. by destruct Hcode as [? | [? | ?]].
  - destruct (place_order_summary cfg e name email whatsapp amount w)
      as [[Hc _] | [[Hc _] | (_ & k & Hfree & Hdb & Hrow & Hcontent)]];
      [intros H200; rewrite H200 in Hc; done .. |].
    intros _. exists k, (new_order (db_time e) k name email whatsapp amount).
    split; [exact Hcontent |]. split; [exact Hfree |].
    split; [by rewrite Hdb |]. by split; [| split; [| split]].
Qed.

(** X11. [create_order] answers 200, 400, 415 or 500 only; with any
    answer but 200 the database and the outbox are as before, and with
    400 or 415 the whole world is (a 500 may follow a gateway call). *)
Theorem create_order_failure_keeps_store cfg e req w :
  (code (fst (create_order cfg e req w)) = 200
   \/ code (fst (create_order cfg e req w)) = 400
   \/ code (fst (create_order cfg e req w)) = 415
   \/ code (fst (create_order cfg e req w)) = 500)
  /\ (code (fst (create_order cfg e req w)) <> 200 ->
      db (snd (create_order cfg e req w)) = db w
      /\ outbox (snd (create_order cfg e req w)) = outbox w)
  /\ (code (fst (create_order cfg e req w)) = 400
      \/ code (fst (create_order cfg e req w)) = 415 ->
      snd (create_order cfg e req w) = w).
Proof.
  destruct (create_order_cases cfg e req w)
    as [[Hw Hcode] | (name & email & whatsapp & amount & ->)].
  - rewrite Hw. split; [tauto |]. by split.
  - destruct (place_order_summary cfg e name email whatsapp amount w)
      as [[Hc Hw] | [(Hc & Hdb & Hout) | (Hc & _)]]; rewrite Hc.
    + rewrite Hw. split; [tauto |]. by split.
    + split; [tauto |]. split; [done |]. by intros [? | ?].
    + split; [tauto |]. split; [done |]. by intros [? | ?].
Qed.

(** X12. Values the four reads of lines 344-347 cannot take are
    answered as server errors, with nothing done: a name, email or
    whatsapp that is not a string gives 500 ([AttributeError] of
    [.strip()]), and with three strings an amount that [int] refuses
    gives 500 with [int]'s exception. *)
Theorem create_order_unreadable_field cfg e req w l vn ve vw va :
  is_json req = true ->
  body req = Some (JObj l) ->
  dict_lookup "name" l = Some vn ->
  dict_lookup "email" l = Some ve ->
  dict_lookup "whatsapp" l = Some vw ->
  dict_lookup "amount" l = Some va ->
  ((forall n0 e0 w0, (vn, ve, vw) <> (JStr n0, JStr e0, JStr w0)) ->
     create_order cfg e req w
     = (reply 500 (FailureExn "Server error: " AttributeError), w))
  /\ (forall n0 e0 w0 x,
        (vn, ve, vw) = (JStr n0, JStr e0, JStr w0) ->
        py_int va = Raise x ->
        create_order cfg e req w = (reply 500 (FailureExn "Server error: " x), w)).
Proof.
  intros Hj Hb Hn He Hw Ha.
  assert (Hall : py_all_in required_fields (JObj l) = Ok true)
    by (simpl; by rewrite Hn, He, Hw, Ha).
  unfold create_order, create_order_try, get_json. rewrite Hj, Hb, Hall.
  simpl negb. cbv iota. unfold read_order_fields. simpl. rewrite Hn, He, Hw, Ha.
  simpl. split.
  - intros Hns.
    destruct vn as [| | | | n0 | |]; simpl; try done.
    destruct ve as [| | | | e0 | |]; simpl; try done.
    destruct vw as [| | | | w0 | |]; simpl; try done.
    by destruct (Hns n0 e0 w0).
  - intros n0 e0 w0 x [= -> -> ->] Hx. simpl. by rewrite Hx.
Qed.

Lemma py_all_in_array (ks : list string) (a : list json) :
  py_all_in ks (JArr a) = Ok (forallb (fun k => existsb (py_str_eq k) a) ks).
Proof.
  induction ks as [| k ks IH]; [done |]. simpl.
  destruct (existsb (py_str_eq k) a); [exact IH | done].
Qed.

Lemma py_all_in_text (ks : list string) (t : string) :
  py_all_in ks (JStr t) = Ok (forallb (fun k => py_str_contains k t) ks).
Proof.
  induction ks as [| k ks IH]; [done |]. simpl.
  destruct (py_str_contains k t); [exact IH | done].
Qed.

(** X13. Bodies that are not JSON objects: a content type other than
    JSON gives 415 and a body that does not parse 500; a JSON null,
    boolean or number gives 500 ([in] raises [TypeError]); an array or
    a string is searched for the four names as elements or substrings,
    giving 400 when one is missing and 500 ([AttributeError] of [.get])
    when all are there.  The world is untouched in every case. *)
Theorem create_order_body_shapes cfg e req w :
  (is_json req = false ->
     create_order cfg e req w
     = (reply 415 (Failure "Content-Type must be application/json"), w))
  /\ (is_json req = true -> body req = None ->
      create_order cfg e req w = (reply 500 (FailureExn "Server error: " BadRequest), w))
  /\ (forall v, is_json req = true -> body req = Some v ->
        match v with
        | JNull | JBool _ | JInt _ | JFloat _ =>
            create_order cfg e req w
            = (reply 500 (FailureExn "Server error: " TypeError), w)
        | JArr a =>
            create_order cfg e req w
            = if forallb (fun k => existsb (py_str_eq k) a) required_fields
              then (reply 500 (FailureExn "Server error: " AttributeError), w)
              else (reply 400
                      (Failure "Missing required fields: name, email, whatsapp, amount"),
                    w)
        | JStr t =>
            create_order cfg e req w
            = if forallb (fun k => py_str_contains k t) required_fields
              then (reply 500 (FailureExn "Server error: " AttributeError), w)
              else (reply 400
                      (Failure "Missing required fields: name, email, whatsapp, amount"),
                    w)
        | JObj _ => True
        end).
Proof.
  unfold create_order, create_order_try, get_json. split; [| split].
  - by intros ->.
  - by intros -> ->.
  - intros v -> ->. simpl negb. cbv iota.
    destruct v as [| b | z | f | t | a | l]; try done.
    + rewrite py_all_in_text. by destruct (forallb _ _).
    + rewrite py_all_in_array. by destruct (forallb _ _).
Qed.

(** X14. Free order ids have the resolution of a second: of two valid
    free requests served within the same second of [time.time()], the
    second is answered 500 "Failed to create order" and changes nothing,
    whoever sent it. *)
Theorem free_orders_same_second_collide cfg e1 e2 req1 req2 w
    name1 email1 whatsapp1 name2 email2 whatsapp2 :
  valid_order req1 name1 email1 whatsapp1 0 ->
  valid_order req2 name2 email2 whatsapp2 0 ->
  unix_time e2 = unix_time e1 ->
  create_order cfg e2 req2 (snd (create_order cfg e1 req1 w))
  = (reply 500 (Failure "Failed to create order"), snd (create_order cfg e1 req1 w)).
Proof.
  intros (Hf1 & Hat1 & Hdot1 & _) (Hf2 & Hat2 & Hdot2 & _) Htime.
  rewrite (create_order_places _ _ _ _ _ _ _ _ Hf2).
  set (w1 := snd (create_order cfg e1 req1 w)).
  assert (Htaken : is_Some (orders (db w1) !! ("FREE-" +:+ pretty (unix_time e1)))).
  { subst w1. rewrite (create_order_places _ _ _ _ _ _ _ _ Hf1).
    unfold place_order. rewrite Hat1, Hdot1. simpl.
    destruct (orders (db w) !! ("FREE-" +:+ pretty (unix_time e1))) as [o |] eqn:Hk.
    - rewrite (insert_order_refused _ _ _ _ _ _ _ (or_intror (mk_is_Some _ _ Hk))).
      simpl. by rewrite Hk.
    - rewrite (insert_order_new (db_time e1) _ name1 email1 whatsapp1 0 (db w)
                 eq_refl Hk).
      simpl. by rewrite lookup_insert_eq. }
  unfold place_order. rewrite Hat2, Hdot2, Htime. simpl.
  rewrite (insert_order_refused _ _ _ _ _ _ _ (or_intror Htaken)). simpl.
  by rewrite with_db_same.
Qed.

(** ** Invariants of the orders table *)

Lemma set_payment_well_formed now p s k o :
  row_well_formed k o -> row_well_formed k (set_payment now p s o).
Proof. by intros H. Qed.

Lemma set_payment_same_purchase now p s o : same_purchase o (set_payment now p s o).
Proof. by repeat split. Qed.

Lemma create_order_rows cfg e req w :
  orders (db (snd (create_order cfg e req w))) = orders (db w)
  \/ exists k o,
       orders (db w) !! k = None
       /\ orders (db (snd (create_order cfg e req w))) = <[k := o]> (orders (db w))
       /\ row_well_formed k o /\ order_consistent o.
Proof.
  destruct (create_order_cases cfg e req w)
    as [[-> _] | (name & email & whatsapp & amount & ->)]; [by left |].
  destruct (place_order_summary cfg e name email whatsapp amount w)
    as [[_ ->] | [(_ & -> & _) | (_ & k & Hfree & -> & Hrow & _)]];
    [by left | by left |].
  right. exists k, (new_order (db_time e) k name email whatsapp amount).
  split; [done |]. split; [done |]. split; [done |]. by left.
Qed.

Lemma verify_payment_rows cfg e req w :
  orders (db (snd (verify_payment cfg e req w))) = orders (db w)
  \/ exists k p,
       orders (db (snd (verify_payment cfg e req w)))
       = alter (set_payment (db_time e) p "paid") k (orders (db w)).
Proof.
  destruct (proj2 (verify_payment_frame cfg e req w))
    as [-> | [(k & o & Hfree & _ & _ & Hins) | (k & p & ->)]];
    [by left | | right; by exists k, p].
  destruct (verify_payment_cases cfg e req w) as [[-> _] | (S & O & P & L & HS & Hf)];
    [by left |].
  rewrite (verify_payment_settles _ _ _ _ _ _ _ _ _ HS Hf), settle_payment_db.
  destruct (update_order_payment_orders (db_time e) L P "paid" (db w)) as [-> | [k' ->]];
    [by left | right; by exists k', P].
Qed.

Lemma handle_rows cfg e op w :
  orders (db (snd (handle cfg e op w))) = orders (db w)
  \/ (exists k o,
        orders (db w) !! k = None
        /\ orders (db (snd (handle cfg e op w))) = <[k := o]> (orders (db w))
        /\ row_well_formed k o /\ order_consistent o)
  \/ (exists k p,
        orders (db (snd (handle cfg e op w)))
        = alter (set_payment (db_time e) p "paid") k (orders (db w))).
Proof.
  destruct op as [req | req | order_id | req]; simpl.
  - destruct (create_order_rows cfg e req w) as [-> | H]; [by left | by right; left].
  - destruct (verify_payment_rows cfg e req w) as [-> | H]; [by left | by right; right].
  - left. by rewrite get_order_details_frame.
  - left. by rewrite send_book_frame.
Qed.

Lemma rows_step cfg e op w :
  (forall k o, orders (db w) !! k = Some o -> row_well_formed k o /\ order_consistent o) ->
  forall k o, orders (db (snd (handle cfg e op w))) !! k = Some o ->
              row_well_formed k o /\ order_consistent o.
Proof.
  intros Hw k o.
  destruct (handle_rows cfg e op w)
    as [-> | [(k0 & o0 & Hfree & -> & Hrow & Hcons) | (k0 & p & ->)]].
  - apply Hw.
  - destruct (decide (k0 = k)) as [-> | Hne].
    + rewrite lookup_insert_eq. by intros [= <-].
    + rewrite lookup_insert_ne by done. apply Hw.
  - destruct (decide (k0 = k)) as [-> | Hne].
    + rewrite lookup_alter_eq. destruct (orders (db w) !! k) as [o1 |] eqn:Hk; [| done].
      simpl. intros [= <-]. destruct (Hw k o1 Hk) as [Hrow _].
      split; [by apply set_payment_well_formed | apply set_payment_paid].
    + rewrite lookup_alter_ne by done. apply Hw.
Qed.

Lemma run_rows cfg steps w :
  (forall k o, orders (db w) !! k = Some o -> row_well_formed k o /\ order_consistent o) ->
  forall k o, orders (db (run cfg steps w)) !! k = Some o ->
              row_well_formed k o /\ order_consistent o.
Proof.
  revert w. induction steps as [| [e op] steps IH]; intros w Hw; [exact Hw |].
  simpl. apply IH. by apply rows_step.
Qed.

Lemma reachable_rows cfg w :
  reachable cfg w ->
  forall k o, orders (db w) !! k = Some o -> row_well_formed k o /\ order_consistent o.
Proof.
  induction 1 as [| w e op Hw IH].
  - intros k o. simpl. by rewrite lookup_empty.
  - by apply rows_step.
Qed.

(** X15. Whatever requests the service has handled since it started on
    an empty database, every stored row has its id as key, a
    non-negative amount within 64 bits, an email containing ['@'] and
    ['.'], a [FREE-<seconds>] id when its amount is 0, and a payment id
    exactly when it is [paid]. *)
Theorem rows_after_any_run cfg steps k o :
  orders (db (run cfg steps initial_world)) !! k = Some o ->
  row_well_formed k o /\ order_consistent o.
Proof.
  apply run_rows. intros k' o'. simpl. by rewrite lookup_empty.
Qed.

(** X16. No sequence of requests deletes an order or changes who bought
    what: a stored row is still stored after any run, with the same id,
    name, email, whatsapp, amount and creation time, and still [paid]
    if it was. *)
Theorem stored_purchase_immutable cfg steps w k o :
  orders (db w) !! k = Some o ->
  exists o',
    orders (db (run cfg steps w)) !! k = Some o'
    /\ same_purchase o o'
    /\ (o_status o = "paid" -> o_status o' = "paid").
Proof.
  revert w o. induction steps as [| [e op] steps IH]; intros w o Hk.
  - exists o. by repeat split.
  - simpl.
    destruct (orders_step_lookup _ _ _ _ _ (proj2 (handle_frame cfg e op w)) Hk)
      as (o1 & Hk1 & Ho1).
    destruct (IH _ _ Hk1) as (o' & Hk' & Hsame & Hpaid).
    exists o'. split; [done |].
    destruct Ho1 as [-> | [p ->]]; [by split |].
    split; [| intros _; by apply Hpaid].
    destruct Hsame as (H1 & H2 & H3 & H4 & H5 & H6). by repeat split.
Qed.

(** X17. In a reachable state [get_order_details] never changes
    anything; it answers 404 exactly for the ids not stored, and for a
    stored id 200 with the row's projection, whose id is the one asked
    for, whose status is [created] or [paid] and whose amount is not
    negative. *)
Theorem get_order_details_answers cfg w order_id :
  reachable cfg w ->
  snd (get_order_details order_id w) = w
  /\ (orders (db w) !! order_id = None ->
      fst (get_order_details order_id w) = reply 404 (Failure "Order not found"))
  /\ (forall o, orders (db w) !! order_id = Some o ->
        fst (get_order_details order_id w) = reply 200 (OrderDetails (view_of o))
        /\ v_id (view_of o) = order_id
        /\ (v_status (view_of o) = "created" \/ v_status (view_of o) = "paid")
        /\ 0 <= v_amount (view_of o)).
Proof.
  intros Hw. split; [apply get_order_details_frame |].
  unfold get_order_details, get_order. simpl. split; [by intros -> |].
  intros o Hk. rewrite Hk. split; [done |].
  destruct (reachable_rows cfg w Hw _ _ Hk) as [(Hid & Hpos & _) Hcons].
  split; [done |]. split; [| done].
  destruct Hcons as [[-> _] | [-> _]]; [by left | by right].
Qed.

(** ** Calls of the gateway and of the notifier *)

Lemma create_order_effects cfg e req w :
  (gateway_log (snd (create_order cfg e req w)) = gateway_log w
   /\ (outbox (snd (create_order cfg e req w)) = outbox w
       \/ exists name email k,
            outbox (snd (create_order cfg e req w))
            = (outbox w ++ [{| n_recipient := JStr email;
                               n_template := FreeAccess name k;
                               n_drive_link := drive_link cfg;
                               n_async := false |}])%list))
  \/ (exists name email whatsapp amount,
        0 < amount
        /\ gateway_log (snd (create_order cfg e req w))
           = (gateway_log w ++ [{| g_amount := amount * 100; g_currency := "INR";
                                   g_receipt := "order-" +:+ pretty (unix_time e);
                                   g_notes := (name, email, whatsapp) |}])%list
        /\ outbox (snd (create_order cfg e req w)) = outbox w).
Proof.
  destruct (create_order_cases cfg e req w)
    as [[-> _] | (name & email & whatsapp & amount & ->)]; [left; by split; [| left] |].
  rewrite snd_or_500. unfold place_order.
  destruct (_ || _); [left; by split; [| left] |].
  destruct (amount <? 0) eqn:Hneg; [left; by split; [| left] |].
  apply Z.ltb_ge in Hneg.
  destruct (amount =? 0) eqn:Hzero.
  - left.
    destruct (insert_order _ _ _ _ _ _ _) as [[|] d]; simpl; split; try done;
      [right; by eexists _, _, _ | by left].
  - apply Z.eqb_neq in Hzero. right. exists name, email, whatsapp, amount.
    split; [lia |]. unfold gateway_create.
    destruct (gateway_reply e _) as [gid |]; simpl; [| done].
    by destruct (insert_order _ _ _ _ _ _ _) as [[|] d].
Qed.

Lemma verify_payment_effects cfg e req w :
  gateway_log (snd (verify_payment cfg e req w)) = gateway_log w
  /\ (outbox (snd (verify_payment cfg e req w)) = outbox w
      \/ exists o L P,
           outbox (snd (verify_payment cfg e req w))
           = (outbox w ++ [confirmation cfg o L P])%list).
Proof.
  destruct (verify_payment_cases cfg e req w) as [[-> _] | (S & O & P & L & HS & Hf)];
    [by split; [| left] |].
  rewrite (verify_payment_settles _ _ _ _ _ _ _ _ _ HS Hf), settle_payment_accepts.
  simpl. destruct (get_order L _) as [o |]; simpl; split; try done; [| by left].
  right. by exists o, L, P.
Qed.

Lemma send_book_effects cfg req w :
  gateway_log (snd (send_book cfg req w)) = gateway_log w
  /\ (outbox (snd (send_book cfg req w)) = outbox w
      \/ exists email name order_id amount status,
           outbox (snd (send_book cfg req w))
           = (outbox w ++ [{| n_recipient := email;
                              n_template := BookDelivery name order_id amount status;
                              n_drive_link := drive_link cfg;
                              n_async := false |}])%list).
Proof.
  unfold send_book. rewrite snd_or_500. unfold send_book_try.
  destruct (bind _ _) as [[order_id email] | x]; [| by split; [| left]].
  destruct (_ || _); [by split; [| left] |].
  destruct (get_order order_id (db w)) as [o |]; simpl; split; try done; [| by left].
  right. by eexists _, _, _, _, _.
Qed.

(** X18. One request costs at most one gateway call and at most one
    notification, never both.  Only [create_order] calls the gateway,
    with a positive multiple of 100 in INR; [create_order] notifies
    synchronously with the free-access message, [verify_payment]
    asynchronously with the confirmation, [send_book] synchronously
    with the delivery message, and [get_order_details] does neither. *)
Theorem effects_of_one_request cfg e op w :
  (gateway_log (snd (handle cfg e op w)) = gateway_log w
   \/ exists req g,
        op = CreateOrder req
        /\ gateway_log (snd (handle cfg e op w)) = (gateway_log w ++ [g])%list
        /\ 0 < g_amount g /\ (exists a, g_amount g = a * 100) /\ g_currency g = "INR"
        /\ outbox (snd (handle cfg e op w)) = outbox w)
  /\ (outbox (snd (handle cfg e op w)) = outbox w
      \/ exists n,
           outbox (snd (handle cfg e op w)) = (outbox w ++ [n])%list
           /\ gateway_log (snd (handle cfg e op w)) = gateway_log w
           /\ match op with
              | CreateOrder _ =>
                  n_async n = false /\ exists name k, n_template n = FreeAccess name k
              | VerifyPayment _ =>
                  n_async n = true
                  /\ exists name L amount p, n_template n = PaymentConfirmed name L amount p
              | SendBook _ =>
                  n_async n = false
                  /\ exists name L amount st, n_template n = BookDelivery name L amount st
              | GetOrder _ => False
              end).
Proof.
  destruct op as [req | req | order_id | req]; simpl.
  - destruct (create_order_effects cfg e req w)
      as [[Hg [Ho | (name & email & k & Ho)]] | (name & email & wa & a & Ha & Hg & Ho)].
    + split; by left.
    + split; [by left |]. right. eexists. split; [exact Ho |]. split; [done |].
      split; [done | by eexists _, _].
    + split; [| by left]. right. eexists req, _. split; [done |].
      split; [exact Hg |]. simpl. split; [lia |]. split; [by exists a | by split].
  - destruct (verify_payment_effects cfg e req w) as [Hg [Ho | (o & L & P & Ho)]].
    + split; by left.
    + split; [by left |]. right. eexists. split; [exact Ho |]. split; [done |].
      split; [done | by eexists _, _, _, _].
  - rewrite get_order_details_frame. split; by left.
  - destruct (send_book_effects cfg req w)
      as [Hg [Ho | (email & name & L & a & st & Ho)]].
    + split; by left.
    + split; [by left |]. right. eexists. split; [exact Ho |]. split; [done |].
      split; [done | by eexists _, _, _, _].
Qed.

Lemma handle_outbox cfg e op w :
  outbox (snd (handle cfg e op w)) = outbox w
  \/ exists n, outbox (snd (handle cfg e op w)) = (outbox w ++ [n])%list
               /\ n_drive_link n = drive_link cfg.
Proof.
  destruct op as [req | req | order_id | req]; simpl.
  - destruct (create_order_effects cfg e req w)
      as [[_ [Ho | (name & email & k & Ho)]] | (name & email & wa & a & _ & _ & Ho)];
      [by left | right; by eexists | by left].
  - destruct (verify_payment_effects cfg e req w) as [_ [Ho | (o & L & P & Ho)]];
      [by left | right; by eexists].
  - left. by rewrite get_order_details_frame.
  - destruct (send_book_effects cfg req w)
      as [_ [Ho | (email & name & L & a & st & Ho)]]; [by left | right; by eexists].
Qed.

Lemma drive_link_empty cfg : drive_link cfg = "" <-> BOOK_DRIVE_LINK cfg = Some "".
Proof.
  unfold drive_link. destruct (BOOK_DRIVE_LINK cfg) as [link |]; simpl.
  - split; [by intros -> | by intros [= ->]].
  - split; [by intros [=] | by intros [=]].
Qed.

(** X19. Every notification made since the service started carries the
    link configured as [BOOK_DRIVE_LINK], or the built-in one when the
    variable is unset; so the page [send_email] builds for it is the
    download page, and its "Free Access Confirmed" page is built only
    when [BOOK_DRIVE_LINK] is set to the empty string. *)
Theorem notifications_carry_drive_link cfg w n :
  reachable cfg w ->
  In n (outbox w) ->
  n_drive_link n = drive_link cfg
  /\ (html_page_of (n_drive_link n) = FreeAccessPage <-> BOOK_DRIVE_LINK cfg = Some "").
Proof.
  intros Hw Hn.
  assert (Hlink : n_drive_link n = drive_link cfg).
  { revert n Hn. induction Hw as [| w e op Hw IH]; intros n; [done |].
    destruct (handle_outbox cfg e op w) as [-> | (n0 & -> & Hn0)]; [apply IH |].
    rewrite in_app_iff. intros [Hin | [<- | []]]; [by apply IH | done]. }
  split; [done |]. rewrite Hlink, <- drive_link_empty. unfold html_page_of.
  destruct (String.eqb_spec (drive_link cfg) ""); split; done.
Qed.

(** ** A purchase from creation to delivery *)

(** X20. The paid path end to end.  A valid order of a positive
    64-bit amount whose gateway id [gid] is free is stored and reads
    back as [created] with the stripped name and email; a verification
    carrying the digest of its two gateway ids and naming [gid] then
    makes it read back as [paid]; over both requests the gateway was
    called once and the notifier once, for the confirmation to the
    email given at creation. *)
Theorem purchase_end_to_end cfg e1 e2 req pay w name email whatsapp amount gid S O P :
  valid_order req name email whatsapp amount ->
  0 < amount ->
  int64 amount = true ->
  gateway_reply e1 {| g_amount := amount * 100; g_currency := "INR";
                      g_receipt := "order-" +:+ pretty (unix_time e1);
                      g_notes := (name, email, whatsapp) |} = Some gid ->
  orders (db w) !! gid = None ->
  RAZORPAY_KEY_SECRET cfg = Some S ->
  payment_fields pay O P (JStr (expected_signature S O P)) (JStr gid) ->
  fst (get_order_details gid (snd (create_order cfg e1 req w)))
  = reply 200 (OrderDetails {| v_id := gid; v_user_name := name; v_user_email := email;
                               v_amount := amount; v_status := "created";
                               v_created_at := db_time e1 |})
  /\ fst (get_order_details gid
            (snd (verify_payment cfg e2 pay (snd (create_order cfg e1 req w)))))
     = reply 200 (OrderDetails {| v_id := gid; v_user_name := name; v_user_email := email;
                                  v_amount := amount; v_status := "paid";
                                  v_created_at := db_time e1 |})
  /\ outbox (snd (verify_payment cfg e2 pay (snd (create_order cfg e1 req w))))
     = (outbox w
        ++ [confirmation cfg (new_order (db_time e1) gid name email whatsapp amount)
              (JStr gid) P])%list
  /\ gateway_log (snd (verify_payment cfg e2 pay (snd (create_order cfg e1 req w))))
     = (gateway_log w ++ [{| g_amount := amount * 100; g_currency := "INR";
                             g_receipt := "order-" +:+ pretty (unix_time e1);
                             g_notes := (name, email, whatsapp) |}])%list.
Proof.
  intros (Hf & Hat & Hdot & _) Hpos Hfit Hgw Hfree HS Hpay.
  assert (Hcreate :
    snd (create_order cfg e1 req w)
    = {| db := with_orders
                 (<[gid := new_order (db_time e1) gid name email whatsapp amount]>
                    (orders (db w))) (db w);
         outbox := outbox w;
         gateway_log :=
           (gateway_log w ++ [{| g_amount := amount * 100; g_currency := "INR";
                                 g_receipt := "order-" +:+ pretty (unix_time e1);
                                 g_notes := (name, email, whatsapp) |}])%list |}).
  { rewrite (create_order_places _ _ _ _ _ _ _ _ Hf).
    unfold place_order. rewrite Hat, Hdot. simpl.
    rewrite (proj2 (Z.ltb_ge amount 0)) by lia.
    rewrite (proj2 (Z.eqb_neq amount 0)) by lia.
    unfold gateway_create. rewrite Hgw. simpl.
    by rewrite (insert_order_new _ _ _ _ _ _ _ Hfit Hfree). }
  rewrite Hcreate.
  set (w1 := {| db := _; outbox := outbox w; gateway_log := _ |}).
  assert (Hstored : get_order (JStr gid) (db w1)
                    = Some (new_order (db_time e1) gid name email whatsapp amount)).
  { unfold get_order. simpl. by rewrite lookup_insert_eq. }
  rewrite (verify_payment_settles _ _ _ _ _ _ _ _ _ HS Hpay).
  split; [| split].
  - unfold get_order_details. by rewrite Hstored.
  - unfold get_order_details.
    by rewrite settle_payment_db,
      (update_order_payment_present (db_time e2) (JStr gid) P "paid" _ _ Hstored).
  - by rewrite (settle_payment_stored _ _ _ _ _ _ _ _ Hstored).
Qed.

(** ** The lifecycle of a stored order *)

(** A verification with a valid signature rewrites the row it names. *)
Lemma verify_payment_row cfg e req w S O P L k o :
  RAZORPAY_KEY_SECRET cfg = Some S ->
  payment_fields req O P (JStr (expected_signature S O P)) L ->
  sqlite_key L = KeyText k ->
  orders (db w) !! k = Some o ->
  orders (db (snd (verify_payment cfg e req w))) !! k
  = Some (set_payment (db_time e) P "paid" o).
Proof.
  intros HS Hf HL Hk.
  rewrite (verify_payment_settles _ _ _ _ _ _ _ _ _ HS Hf), settle_payment_db.
  unfold update_order_payment. rewrite HL. simpl.
  by rewrite lookup_alter_eq, Hk.
Qed.

(** Any other operation leaves the row as it is. *)
Lemma handle_row cfg e op w k o :
  orders (db w) !! k = Some o ->
  orders (db (snd (handle cfg e op w))) !! k = Some o
  \/ exists req S O P L,
       op = VerifyPayment req
       /\ RAZORPAY_KEY_SECRET cfg = Some S
       /\ payment_fields req O P (JStr (expected_signature S O P)) L
       /\ sqlite_key L = KeyText k.
Proof.
  intros Hk. destruct op as [req | req | order_id | req]; simpl.
  - left. by apply create_order_keeps_row.
  - destruct (verify_payment_cases cfg e req w) as [[Hw _] | (S & O & P & L & HS & Hf)].
    + left. by rewrite Hw.
    + destruct (sqlite_key L) as [k0 | |] eqn:HL.
      * destruct (decide (k0 = k)) as [-> | Hne].
        -- right. by exists req, S, O, P, L.
        -- left.
           rewrite (verify_payment_settles _ _ _ _ _ _ _ _ _ HS Hf), settle_payment_db.
           unfold update_order_payment. rewrite HL. simpl.
           by rewrite lookup_alter_ne.
      * left.
        rewrite (verify_payment_settles _ _ _ _ _ _ _ _ _ HS Hf), settle_payment_db.
        unfold update_order_payment. by rewrite HL.
      * left.
        rewrite (verify_payment_settles _ _ _ _ _ _ _ _ _ HS Hf), settle_payment_db.
        unfold update_order_payment. by rewrite HL.
  - left. by rewrite get_order_details_frame.
  - left. by rewrite send_book_frame.
Qed.

(** C3, as the code has it.  In every reachable state a stored order
    is [created] with a NULL [payment_id] or [paid] with a
    [payment_id], and whatever the next operation is, the order is
    still stored afterwards and still one of the two; [paid] does not
    revert to [created] and a [payment_id] does not return to NULL.
    The row changes only when the operation is a verification that
    carries the digest of its two gateway ids under the configured
    secret and names the order; and every such verification, also one
    of an order that is already [paid], leaves the row [paid] with the
    payment id of that request and the time of the update, so a later
    successful verification replaces the payment id. *)
Theorem paid_is_final_payment_id_rewritten cfg w e op k o :
  reachable cfg w ->
  orders (db w) !! k = Some o ->
  order_consistent o
  /\ exists o',
       orders (db (snd (handle cfg e op w))) !! k = Some o'
       /\ order_consistent o'
       /\ (o_status o = "paid" -> o_status o' = "paid")
       /\ (is_Some (o_payment_id o) -> is_Some (o_payment_id o'))
       /\ (o' = o
           \/ exists req S O P L,
                op = VerifyPayment req
                /\ RAZORPAY_KEY_SECRET cfg = Some S
                /\ payment_fields req O P (JStr (expected_signature S O P)) L
                /\ sqlite_key L = KeyText k)
       /\ (forall req S O P L,
             op = VerifyPayment req ->
             RAZORPAY_KEY_SECRET cfg = Some S ->
             payment_fields req O P (JStr (expected_signature S O P)) L ->
             sqlite_key L = KeyText k ->
             o_status o' = "paid"
             /\ o_payment_id o' = Some P
             /\ o_updated_at o' = db_time e
             /\ same_purchase o o').
Proof.
  intros Hw Hk.
  pose proof (reachable_consistent cfg w Hw k o Hk) as Hc.
  split; [exact Hc |].
  assert (Hvalid : forall req S O P L,
            op = VerifyPayment req ->
            RAZORPAY_KEY_SECRET cfg = Some S ->
            payment_fields req O P (JStr (expected_signature S O P)) L ->
            sqlite_key L = KeyText k ->
            orders (db (snd (handle cfg e op w))) !! k
            = Some (set_payment (db_time e) P "paid" o)).
  { intros req S O P L -> HS Hf HL. simpl. by eapply verify_payment_row. }
  destruct (handle_row cfg e op w k o Hk) as [Hsame | (req & S & O & P & L & Hop & HS & Hf & HL)].
  - exists o. split; [exact Hsame |]. split; [exact Hc |].
    split; [done |]. split; [done |]. split; [by left |].
    intros req S O P L Hop HS Hf HL.
    pose proof (Hvalid req S O P L Hop HS Hf HL) as Hnew.
    rewrite Hsame in Hnew. injection Hnew as Hnew.
    rewrite Hnew. by repeat split.
  - exists (set_payment (db_time e) P "paid" o).
    split; [by eapply Hvalid |]. split; [apply set_payment_paid |].
    split; [done |]. split; [intros _; by eexists |].
    split; [right; by exists req, S, O, P, L |].
    intros req' S' O' P' L' Hop' HS' Hf' HL'.
    pose proof (Hvalid req S O P L Hop HS Hf HL) as H1.
    pose proof (Hvalid req' S' O' P' L' Hop' HS' Hf' HL') as H2.
    rewrite H1 in H2. injection H2 as <-. by repeat split.
Qed.

End Coverage.

(** ** The response hook *)

Lemma has_header_app name (hs hs' : list (string * string)) :
  has_header name (hs ++ hs') = has_header name hs || has_header name hs'.
Proof. apply existsb_app. Qed.

Lemma has_header_added name value : has_header name [(name, value)] = true.
Proof. unfold has_header. simpl. by rewrite String.eqb_refl. Qed.

Lemma add_if_missing_has name value hs :
  has_header name (add_if_missing name value hs) = true.
Proof.
  unfold add_if_missing. destruct (has_header name hs) eqn:Hh; [done |].
  by rewrite has_header_app, has_header_added, orb_true_r.
Qed.

Lemma add_if_missing_keeps name other value hs :
  has_header name hs = true -> has_header name (add_if_missing other value hs) = true.
Proof.
  intros Hh. unfold add_if_missing. destruct (has_header other hs); [done |].
  by rewrite has_header_app, Hh.
Qed.

Lemma add_if_missing_present name value hs :
  has_header name hs = true -> add_if_missing name value hs = hs.
Proof. intros Hh. unfold add_if_missing. by rewrite Hh. Qed.

Lemma allowed_origin_spec (o : string) :
  existsb (String.eqb o) allowed_origins = true <-> In o allowed_origins.
Proof.
  rewrite existsb_exists. split.
  - by intros (x & Hin & ->%String.eqb_eq).
  - intros Hin. exists o. by rewrite String.eqb_refl.
Qed.

Ltac header_present :=
  repeat first [apply add_if_missing_has | apply add_if_missing_keeps].

(** What the hook guarantees about its result. *)
Lemma after_request_sets origin hs :
  has_header "Content-Type" (after_request origin hs) = true
  /\ (forall o, origin = Some o -> In o allowed_origins ->
        has_header "Access-Control-Allow-Origin" (after_request origin hs) = true
        /\ has_header "Access-Control-Allow-Credentials" (after_request origin hs) = true
        /\ has_header "Access-Control-Allow-Headers" (after_request origin hs) = true
        /\ has_header "Access-Control-Allow-Methods" (after_request origin hs) = true).
Proof.
  unfold after_request. split; [apply add_if_missing_has |].
  intros o -> Hin%allowed_origin_spec. rewrite Hin.
  repeat split; header_present.
Qed.

(** A response that already has what the hook would add is returned as
    it is. *)
Lemma after_request_fixed origin hs :
  has_header "Content-Type" hs = true ->
  (forall o, origin = Some o -> In o allowed_origins ->
     has_header "Access-Control-Allow-Origin" hs = true
     /\ has_header "Access-Control-Allow-Credentials" hs = true
     /\ has_header "Access-Control-Allow-Headers" hs = true
     /\ has_header "Access-Control-Allow-Methods" hs = true) ->
  after_request origin hs = hs.
Proof.
  intros Hct Hcors. unfold after_request.
  destruct origin as [o |]; [| by apply add_if_missing_present].
  destruct (existsb (String.eqb o) allowed_origins) eqn:Hin;
    [| by apply add_if_missing_present].
  destruct (Hcors o eq_refl (proj1 (allowed_origin_spec o) Hin)) as (H1 & H2 & H3 & H4).
  by rewrite (add_if_missing_present _ _ _ H1), (add_if_missing_present _ _ _ H2),
    (add_if_missing_present _ _ _ H3), (add_if_missing_present _ _ _ H4),
    (add_if_missing_present _ _ _ Hct).
Qed.

(** X21. [after_request] is idempotent: run on its own result it adds
    nothing, so a response that passes the hook twice carries no header
    twice on its account. *)
Theorem after_request_idempotent origin hs :
  after_request origin (after_request origin hs) = after_request origin hs.
Proof.
  destruct (after_request_sets origin hs) as [Hct Hcors].
  by apply after_request_fixed.
Qed.

Lemma has_header_listed name (hs : list (string * string)) :
  In name (List.map fst hs) -> has_header name hs = true.
Proof.
  intros ((n & v) & <- & Hin)%in_map_iff. unfold has_header.
  apply existsb_exists. exists (n, v). split; [done |]. apply String.eqb_refl.
Qed.

(** Adding the names of [steps] one after the other to [hs ++ acc]
    only extends [acc], by names of the hook that [hs] lacks, each at
    most once. *)
Lemma add_chain (hs : list (string * string)) (steps acc : list (string * string)) :
  Forall (fun nv => In (fst nv) hook_headers) steps ->
  Forall (fun h => In (fst h) hook_headers /\ has_header (fst h) hs = false) acc ->
  NoDup (List.map fst acc) ->
  exists acc',
    fold_left (fun h nv => add_if_missing (fst nv) (snd nv) h) steps (hs ++ acc)%list
    = (hs ++ acc')%list
    /\ Forall (fun h => In (fst h) hook_headers /\ has_header (fst h) hs = false) acc'
    /\ NoDup (List.map fst acc')
    /\ (length acc' <= length acc + length steps)%nat.
Proof.
  revert acc. induction steps as [| [name value] steps IH]; intros acc Hsteps Hacc Hnd.
  - exists acc. simpl. repeat split; [done | done | lia].
  - apply Forall_cons in Hsteps as [Hname Hsteps]. simpl in Hname. simpl fold_left.
    unfold add_if_missing at 2.
    destruct (has_header name (hs ++ acc)) eqn:Hh.
    + destruct (IH acc Hsteps Hacc Hnd) as (acc' & Heq & Hall & Hnd' & Hlen).
      exists acc'. repeat split; [done | done | done | simpl; lia].
    + rewrite has_header_app in Hh. apply orb_false_iff in Hh as [Hhs Hacc'].
      rewrite <- app_assoc.
      destruct (IH (acc ++ [(name, value)])%list Hsteps) as (acc' & Heq & Hall & Hnd' & Hlen).
      * apply Forall_app. split; [done |]. by apply Forall_singleton.
      * rewrite map_app. apply NoDup_app. split; [done |]. split; [| apply NoDup_singleton].
        intros x Hx ->%list_elem_of_singleton. simpl in Hx.
        apply list_elem_of_In, has_header_listed in Hx. congruence.
      * exists acc'. repeat split; [done | done | done |].
        rewrite length_app in Hlen. simpl in *. lia.
Qed.

(** X22. [after_request] only appends: its result is the response's
    header list followed by at most five new pairs, each under one of
    the hook's five names, a name the response did not carry in any
    letter case, and no name twice.  It never removes, reorders or
    rewrites a header. *)
Theorem after_request_only_appends origin hs :
  exists added,
    after_request origin hs = (hs ++ added)%list
    /\ Forall (fun h => In (fst h) hook_headers /\ has_header (fst h) hs = false) added
    /\ NoDup (List.map fst added)
    /\ (length added <= 5)%nat.
Proof.
  assert (Hchain : forall steps,
             Forall (fun nv => In (fst nv) hook_headers) steps ->
             (length steps <= 5)%nat ->
             exists added,
               fold_left (fun h nv => add_if_missing (fst nv) (snd nv) h) steps hs
               = (hs ++ added)%list
               /\ Forall (fun h => In (fst h) hook_headers
                                   /\ has_header (fst h) hs = false) added
               /\ NoDup (List.map fst added)
               /\ (length added <= 5)%nat).
  { intros steps Hsteps Hlen.
    destruct (add_chain hs steps [] Hsteps (Forall_nil_2 _) (NoDup_nil_2))
      as (added & Heq & Hall & Hnd & Hn).
    rewrite app_nil_r in Heq. exists added. repeat split; [done | done | done |].
    simpl in Hn. lia. }
  unfold after_request. destruct origin as [o |].
  - destruct (existsb (String.eqb o) allowed_origins).
    + apply (Hchain [("Access-Control-Allow-Origin", o);
                     ("Access-Control-Allow-Credentials", "true");
                     ("Access-Control-Allow-Headers",
                      "Content-Type,Authorization,X-Requested-With");
                     ("Access-Control-Allow-Methods", "GET,POST,PUT,DELETE,OPTIONS");
                     ("Content-Type", "application/json")]); [| simpl; lia].
      repeat apply Forall_cons_2; [simpl; tauto .. | apply Forall_nil_2].
    + apply (Hchain [("Content-Type", "application/json")]); [| simpl; lia].
      apply Forall_cons_2; [simpl; tauto | apply Forall_nil_2].
  - apply (Hchain [("Content-Type", "application/json")]); [| simpl; lia].
    apply Forall_cons_2; [simpl; tauto | apply Forall_nil_2].
Qed.

Lemma add_if_missing_in (h : string * string) name value hs :
  In h hs -> In h (add_if_missing name value hs).
Proof.
  intros Hin. unfold add_if_missing. destruct (has_header name hs); [done |].
  apply in_or_app. by left.
Qed.

(** X23. The origin policy of [after_request].  For a request whose
    [Origin] is one of the five allowed, the result carries the four
    CORS headers, and when the response had no
    [Access-Control-Allow-Origin] the one added echoes that origin.
    For any other origin, or none, the hook leaves the presence of each
    CORS header as it found it.  [Content-Type] is present in every
    result. *)
Theorem after_request_origin_policy origin hs :
  has_header "Content-Type" (after_request origin hs) = true
  /\ (forall o, origin = Some o -> In o allowed_origins ->
        has_header "Access-Control-Allow-Origin" (after_request origin hs) = true
        /\ has_header "Access-Control-Allow-Credentials" (after_request origin hs) = true
        /\ has_header "Access-Control-Allow-Headers" (after_request origin hs) = true
        /\ has_header "Access-Control-Allow-Methods" (after_request origin hs) = true
        /\ (has_header "Access-Control-Allow-Origin" hs = false ->
            In ("Access-Control-Allow-Origin", o) (after_request origin hs)))
  /\ ((forall o, origin = Some o -> ~ In o allowed_origins) ->
      forall name,
        In name ["Access-Control-Allow-Origin"; "Access-Control-Allow-Credentials";
                 "Access-Control-Allow-Headers"; "Access-Control-Allow-Methods"] ->
        has_header name (after_request origin hs) = has_header name hs).
Proof.
  destruct (after_request_sets origin hs) as [Hct Hcors].
  split; [done |]. split.
  - intros o Ho Hin. destruct (Hcors o Ho Hin) as (H1 & H2 & H3 & H4).
    repeat split; try done.
    intros Habsent. subst origin. unfold after_request.
    rewrite (proj2 (allowed_origin_spec o) Hin).
    do 4 apply add_if_missing_in.
    unfold add_if_missing. rewrite Habsent. apply in_or_app. right. by left.
  - intros Hforeign name Hname.
    assert (Hplain : after_request origin hs
                     = add_if_missing "Content-Type" "application/json" hs).
    { unfold after_request. destruct origin as [o |]; [| done].
      destruct (existsb (String.eqb o) allowed_origins) eqn:Hin; [| done].
      apply allowed_origin_spec in Hin. by destruct (Hforeign o eq_refl). }
    rewrite Hplain. unfold add_if_missing.
    destruct (has_header "Content-Type" hs); [done |].
    rewrite has_header_app.
    destruct Hname as [<- | [<- | [<- | [<- | []]]]]; apply orb_false_r.
Qed.

(** ** The further properties on concrete runs *)

Module CoverageRun.
Import Example Scenario.

Lemma w_two_def : orders (db w_two) !! "order_def" = Some created_def.
Proof. by vm_compute. Qed.

Lemma pay_2_fields :
  payment_fields pay_2 "order_abc" "pay_2"
    (JStr (expected_signature (H := py_runtime) "rzp_secret" "order_abc" "pay_2"))
    (JStr "order_abc").
Proof. split; by vm_compute. Qed.

Lemma pay_for_def_fields :
  payment_fields pay_xyz_for_def "order_abc" "pay_xyz"
    (JStr (expected_signature (H := py_runtime) "rzp_secret" "order_abc" "pay_xyz"))
    (JStr "order_def").
Proof. split; by vm_compute. Qed.

(** X1 on a new row in [w_created]'s database. *)
Lemma insert_order_then_get_run :
  get_order (H := py_runtime) (JStr "order_new")
    (snd (insert_order 1700000200 "order_new" "Carol" "carol@z.io" "+4420" 10
            (db w_created)))
  = Some {| o_id := "order_new"; o_user_name := "Carol"; o_user_email := "carol@z.io";
            o_user_whatsapp := "+4420"; o_amount := 10;
            o_status := "created"; o_payment_id := None;
            o_created_at := 1700000200; o_updated_at := 1700000200 |}.
Proof.
  exact (proj1 (proj2 (insert_order_then_get (RT := py_runtime) 1700000200 "order_new"
                         "Carol" "carol@z.io" "+4420" 10 (db w_created)
                         ltac:(by vm_compute)))).
Defined.

(** X2: a second insert under [order_new]. *)
Lemma insert_order_same_id_refused_run :
  fst (insert_order 1700000300 "order_new" "Dan" "dan@z.io" "+4421" 20
         (snd (insert_order 1700000200 "order_new" "Carol" "carol@z.io" "+4420" 10
                 (db w_created))))
  = false.
Proof.
  by rewrite (insert_order_same_id_refused 1700000200 1700000300 "order_new"
                "Carol" "carol@z.io" "+4420" 10 "Dan" "dan@z.io" "+4421" 20
                (db w_created) ltac:(by vm_compute)).
Defined.

(** X4: Alice's signed payment for [order_abc] marks Bob's [order_def]. *)
Lemma verify_payment_marks_named_order_run :
  get_order (H := py_runtime) (JStr "order_def")
    (db (snd (verify_payment (H := py_runtime) cfg (at_time 1700000090 None)
                pay_xyz_for_def w_two)))
  = Some {| o_id := "order_def"; o_user_name := "Bob"; o_user_email := "bob@y.org";
            o_user_whatsapp := "+15550100"; o_amount := 4999;
            o_status := "paid"; o_payment_id := Some "pay_xyz";
            o_created_at := 1700000030; o_updated_at := 1700000090 |}.
Proof.
  exact (proj1 (proj2 (verify_payment_marks_named_order (RT := py_runtime) cfg
                         (at_time 1700000090 None) pay_xyz_for_def w_two "rzp_secret"
                         "order_abc" "pay_xyz" (JStr "order_def") created_def
                         eq_refl pay_for_def_fields w_two_def))).
Defined.

(** X5: [pay_xyz] verified twice. *)
Lemma repeated_verification_notifies_again_run :
  outbox (snd (verify_payment (H := py_runtime) cfg (at_time 1700000120 None) pay_xyz
                 (snd (verify_payment (H := py_runtime) cfg (at_time 1700000060 None)
                         pay_xyz w_created))))
  = (outbox w_created
     ++ [confirmation cfg created_abc (JStr "order_abc") "pay_xyz";
         confirmation cfg created_abc (JStr "order_abc") "pay_xyz"])%list.
Proof.
  exact (repeated_verification_notifies_again (RT := py_runtime) cfg
           (at_time 1700000060 None) (at_time 1700000120 None) pay_xyz w_created
           "rzp_secret" "order_abc" "pay_xyz" (JStr "order_abc") created_abc
           eq_refl Run.pay_xyz_fields Run.w_created_abc).
Defined.

(** X6: a request without a signature. *)
Lemma verify_payment_rejections_run :
  fst (verify_payment (H := py_runtime) cfg (at_time 1700000060 None)
         (payment_request (JStr "order_abc") (JStr "pay_xyz") JNull (JStr "order_abc"))
         w_created)
  = reply 400 (Failure "Missing payment verification data").
Proof.
  exact (proj1 (proj2 (verify_payment_rejections (RT := py_runtime) cfg
                         (at_time 1700000060 None)
                         (payment_request (JStr "order_abc") (JStr "pay_xyz") JNull
                            (JStr "order_abc")) w_created))
           (JStr "order_abc") (JStr "pay_xyz") JNull (JStr "order_abc")
           eq_refl eq_refl).
Defined.

(** X7 on the step from [w_created] to [w_paid]. *)
Lemma paid_only_by_valid_signature_run :
  exists req S O P L,
    VerifyPayment pay_xyz = VerifyPayment req
    /\ RAZORPAY_KEY_SECRET cfg = Some S
    /\ payment_fields req O P (JStr (expected_signature (H := py_runtime) S O P)) L
    /\ sqlite_key (H := py_runtime) L = KeyText "order_abc"
    /\ paid_abc = set_payment (db_time (at_time 1700000060 None)) P "paid" created_abc.
Proof.
  exact (paid_only_by_valid_signature (RT := py_runtime) cfg (at_time 1700000060 None)
           (VerifyPayment pay_xyz) w_created "order_abc" created_abc paid_abc
           Run.w_created_abc ltac:(by vm_compute) Run.w_paid_abc eq_refl).
Defined.

(** X8: the book of [order_abc] goes to an address of the caller's. *)
Lemma send_book_any_recipient_run :
  outbox (snd (send_book (H := py_runtime) cfg
                 (book_request (JStr "order_abc") (JStr "mallory@elsewhere.example"))
                 w_created))
  = [{| n_recipient := JStr "mallory@elsewhere.example";
        n_template := BookDelivery "Alice" (JStr "order_abc") 99 "created";
        n_drive_link := drive_link cfg; n_async := false |}].
Proof.
  by rewrite (send_book_any_recipient (RT := py_runtime) cfg
                (book_request (JStr "order_abc") (JStr "mallory@elsewhere.example"))
                w_created _ (JStr "order_abc") (JStr "mallory@elsewhere.example")
                created_abc eq_refl eq_refl eq_refl eq_refl eq_refl Run.w_created_abc).
Defined.

(** X9: an order that is not stored. *)
Lemma send_book_refusals_run :
  send_book (H := py_runtime) cfg
    (book_request (JStr "ghost") (JStr "alice@x.com")) w_created
  = (reply 404 (Failure "Order not found"), w_created).
Proof.
  exact (proj1 (proj2 (proj2 (send_book_refusals (RT := py_runtime) cfg
                                (book_request (JStr "ghost") (JStr "alice@x.com"))
                                w_created)))
           _ eq_refl eq_refl ltac:(by vm_compute)).
Defined.

(** X10 on Alice's order in the initial state. *)
Lemma create_order_success_persists_run :
  exists k o,
    (content (fst (create_order (H := py_runtime) cfg
                     (at_time 1700000000 (Some "order_abc")) alice initial_world))
     = FreeOrder k
     \/ content (fst (create_order (H := py_runtime) cfg
                        (at_time 1700000000 (Some "order_abc")) alice initial_world))
        = PaidOrder k (RAZORPAY_KEY_ID cfg) (o_amount o))
    /\ orders (db initial_world) !! k = None
    /\ orders (db (snd (create_order (H := py_runtime) cfg
                          (at_time 1700000000 (Some "order_abc")) alice initial_world)))
       = <[k := o]> (orders (db initial_world))
    /\ o_status o = "created" /\ o_payment_id o = None
    /\ o_created_at o = db_time (at_time 1700000000 (Some "order_abc"))
    /\ row_well_formed k o.
Proof.
  exact (create_order_success_persists (RT := py_runtime) cfg
           (at_time 1700000000 (Some "order_abc")) alice initial_world
           ltac:(by vm_compute)).
Defined.

(** X11: the gateway fails. *)
Lemma create_order_failure_keeps_store_run :
  db (snd (create_order (H := py_runtime) cfg (at_time 1700000000 None) alice
             initial_world)) = db initial_world
  /\ outbox (snd (create_order (H := py_runtime) cfg (at_time 1700000000 None) alice
                    initial_world)) = outbox initial_world.
Proof.
  apply (create_order_failure_keeps_store (RT := py_runtime) cfg
           (at_time 1700000000 None) alice initial_world).
  vm_compute. discriminate.
Defined.

(** X12: an amount of null. *)
Lemma create_order_unreadable_field_run :
  create_order (H := py_runtime) cfg (at_time 1700000000 None)
    (order_request (JStr "Alice") (JStr "alice@x.com") (JStr "+911234567890") JNull)
    initial_world
  = (reply 500 (FailureExn "Server error: " TypeError), initial_world).
Proof.
  exact (proj2 (create_order_unreadable_field (RT := py_runtime) cfg
                  (at_time 1700000000 None)
                  (order_request (JStr "Alice") (JStr "alice@x.com")
                     (JStr "+911234567890") JNull)
                  initial_world _ (JStr "Alice") (JStr "alice@x.com")
                  (JStr "+911234567890") JNull
                  eq_refl eq_refl eq_refl eq_refl eq_refl eq_refl)
           "Alice" "alice@x.com" "+911234567890" TypeError eq_refl eq_refl).
Defined.

(** X13: an empty array as body. *)
Lemma create_order_body_shapes_run :
  create_order (H := py_runtime) cfg (at_time 1700000000 None)
    {| is_json := true; body := Some (JArr []) |} initial_world
  = (reply 400 (Failure "Missing required fields: name, email, whatsapp, amount"),
     initial_world).
Proof.
  exact (proj2 (proj2 (create_order_body_shapes (RT := py_runtime) cfg
                         (at_time 1700000000 None)
                         {| is_json := true; body := Some (JArr []) |} initial_world))
           (JArr []) eq_refl eq_refl).
Defined.

(** X14: two free orders at second 1700000000. *)
Lemma free_orders_same_second_collide_run :
  fst (create_order (H := py_runtime) cfg (at_time 1700000000 None) alice_free
         (snd (create_order (H := py_runtime) cfg (at_time 1700000000 None) alice_free
                 initial_world)))
  = reply 500 (Failure "Failed to create order").
Proof.
  by rewrite (free_orders_same_second_collide (RT := py_runtime) cfg
                (at_time 1700000000 None) (at_time 1700000000 None)
                alice_free alice_free initial_world
                "Alice" "alice@x.com" "+911234567890" "Alice" "alice@x.com"
                "+911234567890"
                (Run.alice_valid 0 ltac:(lia)) (Run.alice_valid 0 ltac:(lia)) eq_refl).
Defined.

(** X15 after Alice's creation. *)
Lemma rows_after_any_run_run :
  row_well_formed "order_abc" created_abc /\ order_consistent created_abc.
Proof.
  exact (rows_after_any_run (RT := py_runtime) cfg
           [(at_time 1700000000 (Some "order_abc"), CreateOrder alice)]
           "order_abc" created_abc Run.w_created_abc).
Defined.

(** X16 over Bob's creation and a verification naming his order. *)
Lemma stored_purchase_immutable_run :
  exists o',
    orders (db (run (H := py_runtime) cfg
                  [(at_time 1700000030 (Some "order_def"), CreateOrder bob);
                   (at_time 1700000090 None, VerifyPayment pay_xyz_for_def)]
                  w_created)) !! "order_abc" = Some o'
    /\ same_purchase created_abc o'
    /\ (o_status created_abc = "paid" -> o_status o' = "paid").
Proof.
  exact (stored_purchase_immutable (RT := py_runtime) cfg
           [(at_time 1700000030 (Some "order_def"), CreateOrder bob);
            (at_time 1700000090 None, VerifyPayment pay_xyz_for_def)]
           w_created "order_abc" created_abc Run.w_created_abc).
Defined.

(** X17 in [w_created]. *)
Lemma get_order_details_answers_run :
  fst (get_order_details (H := py_runtime) "order_abc" w_created)
  = reply 200 (OrderDetails (view_of created_abc))
  /\ fst (get_order_details (H := py_runtime) "ghost" w_created)
     = reply 404 (Failure "Order not found").
Proof.
  split.
  - apply (get_order_details_answers (RT := py_runtime) cfg w_created "order_abc"
             Run.w_created_reachable), Run.w_created_abc.
  - apply (get_order_details_answers (RT := py_runtime) cfg w_created "ghost"
             Run.w_created_reachable). by vm_compute.
Defined.

(** X19 on the confirmation in [w_paid]. *)
Lemma notifications_carry_drive_link_run :
  n_drive_link (confirmation cfg created_abc (JStr "order_abc") "pay_xyz")
  = drive_link cfg.
Proof.
  apply (notifications_carry_drive_link (RT := py_runtime) cfg w_paid
           (confirmation cfg created_abc (JStr "order_abc") "pay_xyz")
           Run.w_paid_reachable).
  vm_compute. by left.
Defined.

(** X20 on Alice's purchase. *)
Lemma purchase_end_to_end_run :
  fst (get_order_details (H := py_runtime) "order_abc"
         (snd (verify_payment (H := py_runtime) cfg (at_time 1700000060 None) pay_xyz
                 (snd (create_order (H := py_runtime) cfg
                         (at_time 1700000000 (Some "order_abc")) alice initial_world)))))
  = reply 200 (OrderDetails {| v_id := "order_abc"; v_user_name := "Alice";
                               v_user_email := "alice@x.com"; v_amount := 99;
                               v_status := "paid"; v_created_at := 1700000000 |}).
Proof.
  exact (proj1 (proj2 (purchase_end_to_end (RT := py_runtime) cfg
                         (at_time 1700000000 (Some "order_abc"))
                         (at_time 1700000060 None) alice pay_xyz initial_world
                         "Alice" "alice@x.com" "+911234567890" 99 "order_abc"
                         "rzp_secret" "order_abc" "pay_xyz"
                         (Run.alice_valid 99 ltac:(lia)) ltac:(lia) eq_refl eq_refl
                         eq_refl eq_refl Run.pay_xyz_fields))).
Defined.

(** X23 for a request from [http://localhost:3000]. *)
Lemma after_request_origin_policy_run :
  In ("Access-Control-Allow-Origin", "http://localhost:3000")
    (after_request (Some "http://localhost:3000") [("content-type", "text/html")]).
Proof.
  apply (after_request_origin_policy (Some "http://localhost:3000")
           [("content-type", "text/html")]);
    [reflexivity | simpl; tauto | reflexivity].
Defined.

(** C3 as amended, on the step of [payment_id_overwritten]: the order
    [order_abc], [paid] with [pay_xyz] in [w_paid], is still [paid]
    after the verification of [pay_2] and carries [pay_2]. *)
Lemma paid_is_final_payment_id_rewritten_run :
  order_consistent Example.paid_abc
  /\ exists o',
       orders (db (snd (handle (H := py_runtime) cfg (at_time 1700000120 None)
                          (VerifyPayment pay_2) w_paid))) !! "order_abc" = Some o'
       /\ o_status o' = "paid"
       /\ o_payment_id o' = Some "pay_2"
       /\ o_updated_at o' = 1700000120.
Proof.
  destruct (paid_is_final_payment_id_rewritten (RT := py_runtime) cfg w_paid
              (at_time 1700000120 None) (VerifyPayment pay_2) "order_abc" paid_abc
              Run.w_paid_reachable Run.w_paid_abc)
    as (Hc & o' & Hk & _ & _ & _ & _ & Hnew).
  split; [exact Hc |]. exists o'. split; [exact Hk |].
  destruct (Hnew pay_2 "rzp_secret" "order_abc" "pay_2" (JStr "order_abc")
              eq_refl eq_refl pay_2_fields eq_refl) as (Hpaid & Hid & Hat & _).
  by repeat split.
Defined.

End CoverageRun.
